(** * Challan OCR app: row derivation, JSON isolation and response
      classification of [app.py], embedded and verified.

    The development follows [app.py]:
    - [PyStr]    the [str] methods the code calls ([strip], [find],
                 [rfind], slicing, [in]);
    - [PyNum]    the builtins [float] and [str] on the numbers the code
                 computes with (binary64 arithmetic, decimal parsing,
                 shortest round-trip rendering);
    - [Gemini]   the JSON isolation of [analyze_image_with_gemini];
    - [Sheets]   the row derivation and the response classification of
                 [send_to_google_sheets];
    - [GeminiErrors], [Models], [Main]
                 the exception handlers of the Gemini calls,
                 [list_available_models], and the data panel and send
                 button of [main];
    - [Difference]
                 the texts of the difference field, and the decimal
                 numbers the specification reads in the weights;
    - [Store]    the row derivation once more, on the objects
                 [json.loads] returns: [dict]s and [list]s at addresses
                 of a heap, read and changed in place.

    A Python [str] is embedded as a Rocq [string]; its characters are read
    as the code points U+0000..U+00FF. *)

From Stdlib Require Import ZArith String Ascii List Bool Lia.
From Stdlib Require Import Floats.SpecFloat DecimalString.
From stdpp Require Import base option gmap strings.

Import ListNotations.
Local Open Scope string_scope.
Local Open Scope Z_scope.

(* ===================================================================== *)
(** ** Python [str] methods *)
(* ===================================================================== *)

Module PyStr.

Definition chars (s : string) : list ascii := list_ascii_of_string s.
Definition of_chars (l : list ascii) : string := string_of_list_ascii l.

Definition code (c : ascii) : N := N_of_ascii c.

(** [str.isspace] on one character, for code points below U+0100:
    TAB..CR, FS..US, SPACE, NEL and NBSP. *)
Definition is_space (c : ascii) : bool :=
  let n := code c in
  ((9 <=? n) && (n <=? 13))%N
  || ((28 <=? n) && (n <=? 32))%N
  || (n =? 133)%N || (n =? 160)%N.

Fixpoint lstrip_chars (l : list ascii) : list ascii :=
  match l with
  | c :: l' => if is_space c then lstrip_chars l' else l
  | [] => []
  end.

Definition rstrip_chars (l : list ascii) : list ascii :=
  rev (lstrip_chars (rev l)).

Definition strip_chars (l : list ascii) : list ascii :=
  rstrip_chars (lstrip_chars l).

(** [s.strip()] *)
Definition strip (s : string) : string := of_chars (strip_chars (chars s)).

(** Truth value of a [str]: [not s] holds exactly for the empty one. *)
Definition truthy (s : string) : bool :=
  match s with EmptyString => false | String _ _ => true end.

Definition ascii_eqb (a b : ascii) : bool := (code a =? code b)%N.

(** [s.find(c)] for a one-character needle: index of the first
    occurrence, [-1] when there is none. *)
Fixpoint find_from (c : ascii) (l : list ascii) (i : Z) : Z :=
  match l with
  | [] => -1
  | x :: l' => if ascii_eqb x c then i else find_from c l' (i + 1)
  end.

Definition find (s : string) (c : ascii) : Z := find_from c (chars s) 0.

(** [s.rfind(c)]: index of the last occurrence, [-1] when there is
    none. *)
Fixpoint rfind_from (c : ascii) (l : list ascii) (i : Z) (last : Z) : Z :=
  match l with
  | [] => last
  | x :: l' =>
      rfind_from c l' (i + 1) (if ascii_eqb x c then i else last)
  end.

Definition rfind (s : string) (c : ascii) : Z :=
  rfind_from c (chars s) 0 (-1).

(** Slice bound adjustment of [s[a:b]]: a negative index counts from
    the end, and the result is clamped to [0 .. len]. *)
Definition clamp (len i : Z) : Z :=
  let i' := if i <? 0 then i + len else i in
  if i' <? 0 then 0 else if len <? i' then len else i'.

(** [s[a:b]] *)
Definition slice (s : string) (a b : Z) : string :=
  let l := chars s in
  let len := Z.of_nat (List.length l) in
  let lo := clamp len a in
  let hi := clamp len b in
  of_chars (firstn (Z.to_nat (hi - lo)) (skipn (Z.to_nat lo) l)).

Fixpoint is_prefix (p l : list ascii) : bool :=
  match p, l with
  | [], _ => true
  | _ :: _, [] => false
  | a :: p', b :: l' => ascii_eqb a b && is_prefix p' l'
  end.

Fixpoint contains_chars (p l : list ascii) : bool :=
  is_prefix p l ||
  match l with
  | [] => false
  | _ :: l' => contains_chars p l'
  end.

(** [sub in s] *)
Definition contains (sub s : string) : bool :=
  contains_chars (chars sub) (chars s).

(** A string that is empty or only whitespace: [not s.strip()]. *)
Definition blank (s : string) : bool := negb (truthy (strip s)).

(** The same, said on the characters. *)
Definition whitespace_only (s : string) : bool :=
  forallb is_space (chars s).

(** [p] occurs in [l] as a contiguous block. *)
Definition infix (p l : list ascii) : Prop :=
  exists a b, l = (a ++ p ++ b)%list.

(** A needle whose first and last characters are not whitespace. *)
Definition tight (p : list ascii) : bool :=
  match p, rev p with
  | c :: _, d :: _ => negb (is_space c) && negb (is_space d)
  | _, _ => false
  end.

(** The character [c] occurs in [s]. *)
Definition has_char (c : ascii) (s : string) : Prop := In c (chars s).

End PyStr.

(* ===================================================================== *)
(** ** Python numbers: [float(s)], subtraction, comparison, [str(x)] *)
(* ===================================================================== *)

Module PyNum.
Import PyStr.

(** A Python [float] is an IEEE 754 binary64 value. *)
Definition prec : Z := 53.
Definition emax : Z := 1024.

(** The two numeric types the code computes with: the [int] literal [0]
    and the results of [float(...)]. *)
Inductive num : Type :=
| PyInt (z : Z)
| PyFloat (f : spec_float).

(** *** [float(s)] for a [str] argument *)

(** Whitespace that [float] removes around the literal: the ASCII
    whitespace TAB..CR and SPACE, and NEL and NBSP, which the conversion
    first turns into spaces. *)
Definition is_float_space (c : ascii) : bool :=
  let n := code c in
  ((9 <=? n) && (n <=? 13))%N || (n =? 32)%N || (n =? 133)%N || (n =? 160)%N.

Definition digit_val (c : ascii) : option Z :=
  let n := code c in
  if ((48 <=? n) && (n <=? 57))%N then Some (Z.of_N n - 48) else None.

Definition is_digit (c : ascii) : bool :=
  match digit_val c with Some _ => true | None => false end.

Definition underscore : ascii := "_"%char.

(** Underscores are allowed only between two digits; they are removed
    before the literal is read.  [prev] is the previous character. *)
Fixpoint drop_underscores (prev : option ascii) (l : list ascii)
  : option (list ascii) :=
  match l with
  | [] =>
      match prev with
      | Some p => if ascii_eqb p underscore then None else Some []
      | None => Some []
      end
  | c :: l' =>
      if ascii_eqb c underscore then
        match prev with
        | Some p => if is_digit p then drop_underscores (Some c) l' else None
        | None => None
        end
      else
        let bad :=
          match prev with
          | Some p => ascii_eqb p underscore && negb (is_digit c)
          | None => false
          end in
        if bad then None
        else option_map (cons c) (drop_underscores (Some c) l')
  end.

Fixpoint lstrip_float (l : list ascii) : list ascii :=
  match l with
  | c :: l' => if is_float_space c then lstrip_float l' else l
  | [] => []
  end.

Definition strip_float (l : list ascii) : list ascii :=
  rev (lstrip_float (rev (lstrip_float l))).

(** Reads a run of decimal digits: accumulated value, number of digits
    read, and the rest of the input. *)
Fixpoint read_digits (l : list ascii) (acc cnt : Z)
  : Z * Z * list ascii :=
  match l with
  | c :: l' =>
      match digit_val c with
      | Some d => read_digits l' (10 * acc + d) (cnt + 1)
      | None => (acc, cnt, l)
      end
  | [] => (acc, cnt, [])
  end.

(** The correctly rounded (to nearest, ties to even) binary64 value of
    [(-1)^s * d * 10^e10]; overflow gives an infinity, underflow a
    subnormal or a zero. *)
Definition of_decimal (s : bool) (d e10 : Z) : spec_float :=
  match d with
  | Zpos m =>
      if 0 <=? e10
      then
        match Z.pos m * 10 ^ e10 with
        | Zpos n => binary_round prec emax s n 0
        | _ => S754_nan
        end
      else
        match 10 ^ (- e10) with
        | Zpos q => SFdiv prec emax (S754_finite s m 0) (S754_finite false q 0)
        | _ => S754_nan
        end
  | _ => S754_zero s
  end.

Definition to_lower (c : ascii) : ascii :=
  let n := code c in
  if ((65 <=? n) && (n <=? 90))%N then ascii_of_N (n + 32) else c.

Definition lower_eqb (l : list ascii) (w : string) : bool :=
  String.eqb (of_chars (map to_lower l)) w.

Definition read_sign (l : list ascii) : bool * list ascii :=
  match l with
  | c :: l' =>
      if ascii_eqb c "-"%char then (true, l')
      else if ascii_eqb c "+"%char then (false, l')
      else (false, l)
  | [] => (false, [])
  end.

(** The exponent part, which must reach the end of the input: nothing,
    or [e]/[E], an optional sign and at least one digit. *)
Definition read_exponent (l : list ascii) : option Z :=
  match l with
  | [] => Some 0
  | c :: l' =>
      if ascii_eqb (to_lower c) "e"%char then
        let '(neg, l2) := read_sign l' in
        match read_digits l2 0 0 with
        | (v, cnt, []) =>
            if 0 <? cnt then Some (if neg then - v else v) else None
        | _ => None
        end
      else None
  end.

(** The literal itself, whitespace and underscores removed: [inf],
    [infinity] or [nan] in any letter case, or digits with an optional
    point and exponent; an optional sign first. *)
Definition parse_literal (l : list ascii) : option spec_float :=
  let '(neg, body) := read_sign l in
  if lower_eqb body "inf" || lower_eqb body "infinity"
  then Some (S754_infinity neg)
  else if lower_eqb body "nan" then Some S754_nan
  else
    let '(ip, n1, r1) := read_digits body 0 0 in
    let '(d, n2, r2) :=
      match r1 with
      | c :: r1' =>
          if ascii_eqb c "."%char then read_digits r1' ip 0
          else (ip, 0, r1)
      | [] => (ip, 0, [])
      end in
    if n1 + n2 =? 0 then None
    else
      match read_exponent r2 with
      | Some e => Some (of_decimal neg d (e - n2))
      | None => None
      end.

(** [float(s)]: [None] stands for the [ValueError] the builtin raises. *)
Definition float_of_string (s : string) : option spec_float :=
  match drop_underscores None (chars s) with
  | Some l => parse_literal (strip_float l)
  | None => None
  end.

(** *** Arithmetic and comparison *)

(** [float(n)] for an [int] operand of a mixed operation. *)
Definition float_of_int (z : Z) : spec_float :=
  binary_normalize prec emax z 0 false.

Definition to_float (x : num) : spec_float :=
  match x with
  | PyInt z => float_of_int z
  | PyFloat f => f
  end.

(** [x - y]: exact on two [int]s, binary64 subtraction otherwise. *)
Definition sub (x y : num) : num :=
  match x, y with
  | PyInt a, PyInt b => PyInt (a - b)
  | _, _ => PyFloat (SFsub prec emax (to_float x) (to_float y))
  end.

(** [x > 0] *)
Definition gt0 (x : num) : bool :=
  match x with
  | PyInt z => 0 <? z
  | PyFloat f => SFltb (S754_zero false) f
  end.

(** *** [str(x)] *)

Definition digits_of (z : Z) : string :=
  NilZero.string_of_uint (N.to_uint (Z.to_N z)).

Definition str_int (z : Z) : string :=
  NilZero.string_of_int (Z.to_int z).

Fixpoint zeros (n : nat) : string :=
  match n with
  | O => ""
  | S n' => String "0" (zeros n')
  end.

Definition float_eqb (f g : spec_float) : bool :=
  match f, g with
  | S754_finite s m e, S754_finite s' m' e' =>
      Bool.eqb s s' && Pos.eqb m m' && (e =? e')
  | S754_zero s, S754_zero s' => Bool.eqb s s'
  | S754_infinity s, S754_infinity s' => Bool.eqb s s'
  | S754_nan, S754_nan => true
  | _, _ => false
  end.

(** The least [p], searched upwards from [p0], with
    [n / d < 10 ^ p]. *)
Fixpoint magnitude10 (fuel : nat) (n d p0 : Z) : Z :=
  match fuel with
  | O => p0
  | S fuel' =>
      if (if 0 <=? p0 then n <? d * 10 ^ p0 else n * 10 ^ (- p0) <? d)
      then p0
      else magnitude10 fuel' n d (p0 + 1)
  end.

(** The shortest decimal that [float] reads back as [m * 2^e], found by
    trying 1, 2, ... significant digits; with [k] digits both the
    truncated and the next decimal are tried, the nearer one preferred
    and a tie going to the even digit.  Result: the digits as an
    integer [v] and the power [q], the decimal being [v * 10^q]. *)
Fixpoint shortest_from (fuel : nat) (m : positive) (e : Z)
    (n d p : Z) (k : Z) : Z * Z :=
  let q := p - k in
  let n' := if q <? 0 then n * 10 ^ (- q) else n in
  let d' := if q <? 0 then d else d * 10 ^ q in
  let lo := n' / d' in
  let r := n' mod d' in
  let back v := float_eqb (of_decimal false v q) (S754_finite false m e) in
  let nearest :=
    match 2 * r ?= d' with
    | Lt => lo
    | Gt => lo + 1
    | Eq => if Z.even lo then lo else lo + 1
    end in
  match fuel with
  | O => (nearest, q)
  | S fuel' =>
      if r =? 0 then (lo, q)
      else if back lo && back (lo + 1) then (nearest, q)
      else if back lo then (lo, q)
      else if back (lo + 1) then (lo + 1, q)
      else shortest_from fuel' m e n d p (k + 1)
  end.

Definition shortest (m : positive) (e : Z) : Z * Z :=
  let n := if 0 <=? e then Z.pos m * 2 ^ e else Z.pos m in
  let d := if 0 <=? e then 1 else 2 ^ (- e) in
  let p := magnitude10 700 n d (-330) in
  shortest_from 16 m e n d p 1.

Fixpoint rstrip_zeros_rev (l : list ascii) : list ascii :=
  match l with
  | c :: l' => if ascii_eqb c "0"%char then rstrip_zeros_rev l' else l
  | [] => []
  end.

Definition rstrip_zeros (s : string) : string :=
  of_chars (rev (rstrip_zeros_rev (rev (chars s)))).

Definition pad2 (z : Z) : string :=
  if z <? 10 then String "0" (digits_of z) else digits_of z.

(** Layout of the digit string [ds] with the decimal point after
    [decpt] digits, as [repr] prints a float: scientific notation when
    [decpt] is above 16 or below -3, positional notation with at least
    one digit after the point otherwise. *)
Definition layout (ds : string) (decpt : Z) : string :=
  let len := Z.of_nat (String.length ds) in
  if (decpt <=? -4) || (16 <? decpt) then
    let x := decpt - 1 in
    let mant :=
      match ds with
      | String c "" => String c ""
      | String c rest => String c (String "." rest)
      | "" => ""
      end in
    mant ++ "e" ++ (if x <? 0 then "-" else "+") ++ pad2 (Z.abs x)
  else if decpt <=? 0 then
    "0." ++ zeros (Z.to_nat (- decpt)) ++ ds
  else if len <=? decpt then
    ds ++ zeros (Z.to_nat (decpt - len)) ++ ".0"
  else
    slice ds 0 decpt ++ "." ++ slice ds decpt len.

(** [str(f)] (which is [repr(f)]) for a [float]. *)
Definition str_float (f : spec_float) : string :=
  match f with
  | S754_nan => "nan"
  | S754_infinity s => if s then "-inf" else "inf"
  | S754_zero s => if s then "-0.0" else "0.0"
  | S754_finite s m e =>
      let '(v, q) := shortest m e in
      let all := digits_of v in
      let decpt := Z.of_nat (String.length all) + q in
      (if s then "-" else "") ++ layout (rstrip_zeros all) decpt
  end.

(** [str(x)] *)
Definition str (x : num) : string :=
  match x with
  | PyInt z => str_int z
  | PyFloat f => str_float f
  end.

End PyNum.

(* ===================================================================== *)
(** ** [analyze_image_with_gemini]: isolating the JSON payload *)
(* ===================================================================== *)

Module Gemini.
Import PyStr.

(** What the function does with the service's [response.text], up to
    the call of [json.loads]:
    - [NoResponse]: the text is empty, ["No response from Gemini API"]
      is shown and [None] returned;
    - [NoJsonFound content]: ["Could not extract JSON from Gemini
      response"] is shown with the stripped text, [None] returned;
    - [JsonLoads json_str]: [json.loads(json_str)] is called on the
      candidate; its value is returned, or its [JSONDecodeError] is
      shown as ["Failed to parse JSON response"]. *)
Inductive isolation : Type :=
| NoResponse
| NoJsonFound (content : string)
| JsonLoads (json_str : string).

Definition isolate_json (text : string) : isolation :=
  if negb (truthy text) then NoResponse
  else
    let content := strip text in
    let start_idx := find content "{"%char in
    let end_idx := rfind content "}"%char + 1 in
    if negb (start_idx =? -1) && negb (end_idx =? -1)
    then JsonLoads (slice content start_idx end_idx)
    else NoJsonFound content.

(** The reported result.  [json_loads] stands for [json.loads] of the
    standard library, [None] being its [JSONDecodeError]. *)
Inductive extraction (A : Type) : Type :=
| Extracted (doc : A)
| ErrNoResponse
| ErrNoJsonFound (content : string)
| ErrMalformedJson.
Arguments Extracted {A} doc.
Arguments ErrNoResponse {A}.
Arguments ErrNoJsonFound {A} content.
Arguments ErrMalformedJson {A}.

(** Lines 167-191, from the response text on. *)
Definition analyze_image_with_gemini {A : Type}
    (json_loads : string -> option A) (text : string) : extraction A :=
  match isolate_json text with
  | NoResponse => ErrNoResponse
  | NoJsonFound content => ErrNoJsonFound content
  | JsonLoads json_str =>
      match json_loads json_str with
      | Some doc => Extracted doc
      | None => ErrMalformedJson
      end
  end.

End Gemini.

(* ===================================================================== *)
(** ** [send_to_google_sheets] *)
(* ===================================================================== *)

Module Sheets.
Import PyStr PyNum.

(** *** The extracted document: JSON objects with string members *)

(** [d.get(k, dflt)] *)
Definition get (d : gmap string string) (k dflt : string) : string :=
  default dflt (d !! k).

(** The value of [json.loads]: [challan_info] and [table_data] may each
    be missing from the object. *)
Record document : Type := Document {
  challan_info : option (gmap string string);
  table_data : option (list (gmap string string))
}.

(** *** The clock *)

Record datetime : Type := DateTime {
  year : Z; month : Z; day : Z; hour : Z; minute : Z; second : Z
}.

Definition pad (width : nat) (z : Z) : string :=
  let ds := digits_of z in
  zeros (width - String.length ds) ++ ds.

(** [strftime("%%Y-%%m-%%d")]; years are printed on four digits. *)
Definition strftime_date (t : datetime) : string :=
  pad 4 (year t) ++ "-" ++ pad 2 (month t) ++ "-" ++ pad 2 (day t).

(** [strftime("%%Y-%%m-%%d %%H:%%M:%%S")] *)
Definition strftime_timestamp (t : datetime) : string :=
  strftime_date t ++ " " ++
  pad 2 (hour t) ++ ":" ++ pad 2 (minute t) ++ ":" ++ pad 2 (second t).

(** The ambient clock: [reading n] is what the [n]-th call of
    [datetime.now()] returns, [calls] counts the calls made so far. *)
Record world : Type := World {
  reading : nat -> datetime;
  calls : nat
}.

Definition io (A : Type) : Type := world -> A * world.

Definition ret {A : Type} (a : A) : io A := fun w => (a, w).

Definition bind {A B : Type} (m : io A) (k : A -> io B) : io B :=
  fun w => let '(a, w') := m w in k a w'.

Notation "'let*' x ':=' m 'in' k" := (bind m (fun x => k))
  (at level 10, x name, m at level 200, k at level 200).

(** [datetime.now()] *)
Definition now : io datetime :=
  fun w => (reading w (calls w), World (reading w) (S (calls w))).

(** *** Row derivation (the part before the request) *)

Definition row : Type := list string.

(** [weight_received] as emitted: stripped, ["0"] when empty. *)
Definition normalize_received (item : gmap string string) : string :=
  let weight_received := strip (get item "weight_received" "") in
  if negb (truthy weight_received) || String.eqb weight_received ""
  then "0" else weight_received.

(** [float(weight_received) if weight_received != '0' else 0];
    [None] is the [ValueError] of [float]. *)
Definition received_num (weight_received : string) : option num :=
  if negb (String.eqb weight_received "0")
  then option_map PyFloat (float_of_string weight_received)
  else Some (PyInt 0).

(** The first [try]: the status. *)
Definition status_of (weight_received : string) : string :=
  match received_num weight_received with
  | Some weight_received_num =>
      if gt0 weight_received_num then "Received" else "Not Received"
  | None => "Not Received"
  end.

(** [float(item.get('weight_sent', '0'))
     if item.get('weight_sent', '').strip() else 0] *)
Definition sent_num (item : gmap string string) : option num :=
  if truthy (strip (get item "weight_sent" ""))
  then option_map PyFloat (float_of_string (get item "weight_sent" "0"))
  else Some (PyInt 0).

(** The second [try]: the difference, [0] when either conversion
    raises. *)
Definition difference_of (item : gmap string string)
    (weight_received : string) : num :=
  match sent_num item with
  | Some weight_sent_num =>
      match received_num weight_received with
      | Some weight_received_num => sub weight_sent_num weight_received_num
      | None => PyInt 0
      end
  | None => PyInt 0
  end.

Definition item_row (info item : gmap string string)
    (description current_date current_timestamp : string) : row :=
  let weight_received := normalize_received item in
  let status := status_of weight_received in
  let difference := difference_of item weight_received in
  [ get info "challan_number" "";
    get info "vendor_name" "";
    description;
    get item "weight_sent" "";
    weight_received;
    status;
    "";
    str difference;
    get item "number_of_bags" "";
    get item "plating_color" "";
    "";
    current_date;
    current_timestamp ].

Definition fallback_row (info : gmap string string)
    (current_date current_timestamp : string) : row :=
  [ get info "challan_number" "";
    get info "vendor_name" "";
    ""; ""; "0"; "Not Received"; ""; "0"; ""; ""; "";
    current_date;
    current_timestamp ].

(** The [for item in table_data] loop; [rows] is the list built so
    far. *)
Fixpoint loop (info : gmap string string)
    (current_date current_timestamp : string)
    (items : list (gmap string string)) (rows : list row) : list row :=
  match items with
  | [] => rows
  | item :: rest =>
      let description := strip (get item "description" "") in
      if negb (truthy description)
      then loop info current_date current_timestamp rest rows
      else loop info current_date current_timestamp rest
             (rows ++ [item_row info item description
                         current_date current_timestamp])
  end.

(** The rows for given date and timestamp strings. *)
Definition rows_at (data : document)
    (current_date current_timestamp : string) : list row :=
  let info := default ∅ (challan_info data) in
  let items := default [] (table_data data) in
  let rows := loop info current_date current_timestamp items [] in
  match rows with
  | [] => rows ++ [fallback_row info current_date current_timestamp]
  | _ :: _ => rows
  end.

(** The items that get a row, and the row of such an item. *)
Definition described (item : gmap string string) : bool :=
  negb (whitespace_only (get item "description" "")).

Definition row_of (info : gmap string string)
    (current_date current_timestamp : string)
    (item : gmap string string) : row :=
  item_row info item (strip (get item "description" ""))
    current_date current_timestamp.

(** Lines 212-284: the rows sent, the clock being read twice. *)
Definition derive_rows (data : document) : io (list row) :=
  let* t1 := now in
  let* t2 := now in
  ret (rows_at data (strftime_date t1) (strftime_timestamp t2)).

(** *** The request and the classification of its outcome *)

(** What [requests.post(...)] does: it returns a response, of which the
    code reads [status_code] and [text], or it raises. *)
Inductive post_result : Type :=
| Response (status_code : Z) (text : string)
| RaisesTimeout
| RaisesRequestException (e : string)
| RaisesException (e : string).

(** The [RequestException]s that reach the second handler: the
    [HTTPError] of [raise_for_status] and those of [requests.post]. *)
Inductive request_exception : Type :=
| HTTPError (status_code : Z)
| Transport (e : string).

(** [response.raise_for_status()] of the requests library: an
    [HTTPError] for the client and server error codes, nothing
    otherwise. *)
Definition raise_for_status (status_code : Z) : option request_exception :=
  if (400 <=? status_code) && (status_code <? 600)
  then Some (HTTPError status_code)
  else None.

(** The second component of the returned pair, one constructor per
    message text of the source. *)
Inductive message : Type :=
| Added (n : nat)                  (* Successfully added n rows ... *)
| Unauthorized                     (* Unauthorized: Please check ... *)
| InvalidFormat                    (* Invalid data format sent ... *)
| NoData                           (* No data received by Apps Script *)
| Returned (response_text : string)(* Apps Script returned: ... *)
| TimedOut                         (* Request timed out. ... *)
| NetworkError (e : request_exception) (* Network error: ... *)
| Unexpected (e : string).         (* Unexpected error: ... *)

(** Lines 292-331: the [try] block around the request. *)
Definition classify (rows : list row) (r : post_result) : bool * message :=
  match r with
  | Response status_code text =>
      match raise_for_status status_code with
      | Some e => (false, NetworkError e)
      | None =>
          let response_text := strip text in
          if contains "Success" response_text
          then (true, Added (List.length rows))
          else if contains "Unauthorized" response_text
          then (false, Unauthorized)
          else if contains "Invalid data format" response_text
          then (false, InvalidFormat)
          else if contains "No postData received" response_text
          then (false, NoData)
          else (false, Returned response_text)
      end
  | RaisesTimeout => (false, TimedOut)
  | RaisesRequestException e => (false, NetworkError (Transport e))
  | RaisesException e => (false, Unexpected e)
  end.

(** The substrings the classification looks for, in the order of the
    tests, and the bodies in which none of them occurs. *)
Definition known_substrings : list string :=
  ["Success"; "Unauthorized"; "Invalid data format";
   "No postData received"].

Definition unclassified (text : string) : bool :=
  forallb (fun sub => negb (contains sub text)) known_substrings.

(** The JSON payload [{"key": secret_key, "data": rows}]. *)
Record payload : Type := Payload {
  key : string;
  data : list row
}.

(** [send_to_google_sheets(data, script_url, secret_key)]; [post] is
    the remote side, answering a request to a URL with a body. *)
Definition send_to_google_sheets (post : string -> payload -> post_result)
    (doc : document) (script_url secret_key : string)
  : io (bool * message) :=
  let* rows := derive_rows doc in
  ret (classify rows (post script_url (Payload secret_key rows))).

(** *** The worked example of the specification *)

Definition example_item (weight_received : string)
  : gmap string string :=
  <["description" := "Bolt"]>
    (<["weight_sent" := "10"]>
      (<["weight_received" := weight_received]>
        (<["number_of_bags" := "2"]>
          (<["plating_color" := "Zinc"]> ∅)))).

Definition example_info : gmap string string :=
  <["challan_number" := "J1"]>
    (<["vendor_name" := "V1"]> (<["date" := "2024-01-01"]> ∅)).

Definition example_document (weight_received : string) : document :=
  Document (Some example_info) (Some [example_item weight_received]).

(** A clock that stands at 2024-01-02 10:00:00. *)
Definition example_world : world :=
  World (fun _ => DateTime 2024 1 2 10 0 0) 0.

End Sheets.

(* ===================================================================== *)
(** ** The exception handlers of the Gemini calls *)
(* ===================================================================== *)

Module GeminiErrors.
Import PyStr Gemini.

(** [s.lower()] on one character, for code points below U+0100: the
    letters A..Z and the accented capitals U+00C0..U+00DE (the
    multiplication sign apart) move up by 32. *)
Definition lower_char (c : ascii) : ascii :=
  let n := code c in
  if ((65 <=? n) && (n <=? 90))%N
     || ((192 <=? n) && (n <=? 214))%N
     || ((216 <=? n) && (n <=? 222))%N
  then ascii_of_N (n + 32) else c.

(** [s.lower()] *)
Definition lower (s : string) : string :=
  of_chars (map lower_char (chars s)).

(** What the [try] body of a Gemini call does: [generate_content]
    answers with a response whose [text] is read, or something in the
    body raises an exception, [e] being its [str(e)]. *)
Inductive generation : Type :=
| Generated (text : string)
| Raised (e : string).

(** The user-visible error of the handlers, one constructor per
    message. *)
Inductive gemini_error : Type :=
| InvalidKey
| QuotaExceeded
| ModelNotFound
| SafetyBlocked
| ApiError (e : string).

(** Lines 192-206: the [except Exception] handler of
    [analyze_image_with_gemini]. *)
Definition analyze_handler (e : string) : gemini_error :=
  let error_msg := lower e in
  if contains "api_key" error_msg || contains "invalid" error_msg
     || contains "403" error_msg
  then InvalidKey
  else if contains "quota" error_msg || contains "limit" error_msg
          || contains "429" error_msg
  then QuotaExceeded
  else if contains "404" error_msg || contains "not found" error_msg
  then ModelNotFound
  else if contains "safety" error_msg
  then SafetyBlocked
  else ApiError e.

(** Lines 99-108: the handler of [test_gemini_api_key]. *)
Definition test_handler (e : string) : gemini_error :=
  let error_msg := lower e in
  if contains "api_key" error_msg || contains "invalid" error_msg
     || contains "403" error_msg
  then InvalidKey
  else if contains "quota" error_msg || contains "limit" error_msg
          || contains "429" error_msg
  then QuotaExceeded
  else if contains "404" error_msg
  then ModelNotFound
  else ApiError e.

(** The second component of the pair [test_gemini_api_key] returns. *)
Inductive test_message : Type :=
| KeyWorking                       (* Gemini API key is working! *)
| KeyNoResponse                    (* No response from Gemini API *)
| KeyError (err : gemini_error).

(** Lines 85-108 *)
Definition test_gemini_api_key (g : generation) : bool * test_message :=
  match g with
  | Generated text =>
      if truthy text then (true, KeyWorking) else (false, KeyNoResponse)
  | Raised e => (false, KeyError (test_handler e))
  end.

(** What [analyze_image_with_gemini] shows, and the value it returns:
    the parsed object or [None]. *)
Inductive analysis (A : Type) : Type :=
| Returned_data (doc : A)
| ShownNoResponse
| ShownNoJson (content : string)
| ShownMalformed (raw : string)
| ShownError (err : gemini_error).
Arguments Returned_data {A} doc.
Arguments ShownNoResponse {A}.
Arguments ShownNoJson {A} content.
Arguments ShownMalformed {A} raw.
Arguments ShownError {A} err.

(** Lines 113-206, the whole function: the JSON isolation on a
    generated text, the first handler for the decode error of
    [json.loads] (it shows the unstripped [response.text]), the second
    for every other exception. *)
Definition analyze_image {A : Type} (json_loads : string -> option A)
    (g : generation) : analysis A :=
  match g with
  | Generated text =>
      match isolate_json text with
      | NoResponse => ShownNoResponse
      | NoJsonFound content => ShownNoJson content
      | JsonLoads json_str =>
          match json_loads json_str with
          | Some doc => Returned_data doc
          | None => ShownMalformed text
          end
      end
  | Raised e => ShownError (analyze_handler e)
  end.

End GeminiErrors.

(* ===================================================================== *)
(** ** [list_available_models] *)
(* ===================================================================== *)

Module Models.
Import PyStr.

(** A model description as [genai.list_models()] yields it. *)
Record model : Type := Model {
  name : string;
  supported_generation_methods : list string
}.

(** What iterating [genai.list_models()] does: it yields [yielded] and
    then ends, or raises after them ([genai.configure] raising is the
    case of nothing yielded). *)
Record listing : Type := Listing {
  yielded : list model;
  raises : bool
}.

(** ['generateContent' in model.supported_generation_methods] *)
Definition supports_generate (m : model) : bool :=
  existsb (String.eqb "generateContent") (supported_generation_methods m).

(** The [for] loop; [models] is the list built so far. *)
Fixpoint collect (ms : list model) (models : list string) : list string :=
  match ms with
  | [] => models
  | m :: rest =>
      if supports_generate m
      then collect rest (models ++ [name m])
      else collect rest models
  end.

(** Lines 73-83: the names collected, or [[]] when anything raised. *)
Definition list_available_models (l : listing) : list string :=
  if raises l then [] else collect (yielded l) [].

(** Lines 365-376 of [main]: what the "List Models" button shows. *)
Inductive models_view : Type :=
| EnterKeyFirst                    (* Please enter your API key first *)
| NoModels                         (* No models found or API error *)
| Found (count : nat) (shown : list string).

Definition list_models_button (gemini_api_key : string) (l : listing)
  : models_view :=
  if truthy gemini_api_key then
    let models := list_available_models l in
    match models with
    | _ :: _ => Found (List.length models) (firstn 5 models)
    | [] => NoModels
    end
  else EnterKeyFirst.

End Models.

(* ===================================================================== *)
(** ** The data panel and the send button of [main] *)
(* ===================================================================== *)

Module Main.
Import PyStr Sheets.

(** Lines 537-541: the items kept for display; [kept] is the list built
    so far. *)
Fixpoint filter_loop (table_data kept : list (gmap string string))
  : list (gmap string string) :=
  match table_data with
  | [] => kept
  | item :: rest =>
      let description := strip (get item "description" "") in
      if truthy description
      then filter_loop rest (kept ++ [item])
      else filter_loop rest kept
  end.

Definition filtered_table_data (table_data : list (gmap string string))
  : list (gmap string string) :=
  filter_loop table_data [].

(** Lines 533-551: what the "Table Data" part shows. *)
Inductive table_view : Type :=
| Table (rows : list (gmap string string)) (valid total : nat)
| NoValidTable                     (* all descriptions were empty *)
| NoTable.                         (* No table data found in the image *)

Definition table_panel (data : document) : table_view :=
  let table_data := default [] (table_data data) in
  match table_data with
  | _ :: _ =>
      let filtered := filtered_table_data table_data in
      match filtered with
      | _ :: _ => Table filtered (List.length filtered)
                    (List.length table_data)
      | [] => NoValidTable
      end
  | [] => NoTable
  end.

(** Line 569: the number in "Sent N rows to sheet", that is
    [len(table_data) if table_data else 1]. *)
Definition sent_info_count (data : document) : nat :=
  let table_data := default [] (table_data data) in
  match table_data with
  | [] => 1%nat
  | _ :: _ => List.length table_data
  end.

(** Lines 580-649: the payload shown under "Debug Information".  The
    lines repeat those of [send_to_google_sheets] one for one, with two
    new readings of the clock. *)
Definition debug_payload (data : document) (secret_key : string)
  : io payload :=
  let* t1 := now in
  let* t2 := now in
  ret (Payload secret_key
         (rows_at data (strftime_date t1) (strftime_timestamp t2))).

(** Lines 559-650: what the "Send to Google Sheets" button shows. *)
Inductive send_view : Type :=
| EnterUrlFirst
| Sent (msg : message) (info_count : nat)
| NotSent (msg : message) (debug : payload).

Definition send_button (post : string -> payload -> post_result)
    (data : document) (script_url secret_key : string) : io send_view :=
  if truthy script_url then
    let* r := send_to_google_sheets post data script_url secret_key in
    if fst r then ret (Sent (snd r) (sent_info_count data))
    else
      let* debug := debug_payload data secret_key in
      ret (NotSent (snd r) debug)
  else ret EnterUrlFirst.

End Main.

(* ===================================================================== *)
(** ** The difference field: its texts, and the specification's reading *)
(* ===================================================================== *)

Module Difference.
Import PyStr PyNum.

(** A line item with the two weights only. *)
Definition weighed (weight_sent weight_received : string)
  : gmap string string :=
  <["weight_sent" := weight_sent]>
    (<["weight_received" := weight_received]> ∅).

(** The texts [str] gives for a [float], as opposed to an [int]: they
    have a point or an exponent, or read [inf], [-inf] or [nan]. *)
Definition float_text (s : string) : Prop :=
  has_char "." s \/ has_char "e" s \/
  s = "inf" \/ s = "-inf" \/ s = "nan".

(** In the specification's words the two weights are parsed as decimal
    numbers and the field is their difference, rendered as text.  Read
    so, a weight is a decimal number, [digits / 10 ^ places] exactly,
    and so is the field. *)
Record decimal : Type := Dec { digits : Z; places : Z }.

Definition dec_sub (x y : decimal) : decimal :=
  Dec (digits x * 10 ^ places y - digits y * 10 ^ places x)
      (places x + places y).

Definition dec_eqb (x y : decimal) : bool :=
  digits x * 10 ^ places y =? digits y * 10 ^ places x.

(** The number a text in plain decimal notation denotes: an optional
    sign, digits, and an optional point followed by digits; [None] for
    any other text. *)
Definition decimal_value (s : string) : option decimal :=
  let '(neg, body) := read_sign (chars s) in
  let '(ip, n1, r1) := read_digits body 0 0 in
  let '(d, n2, r2) :=
    match r1 with
    | c :: r1' =>
        if ascii_eqb c "."%char then read_digits r1' ip 0
        else (ip, 0, r1)
    | [] => (ip, 0, [])
    end in
  match r2 with
  | [] =>
      if n1 + n2 =? 0 then None
      else Some (Dec (if neg then - d else d) n2)
  | _ :: _ => None
  end.

End Difference.

(* ===================================================================== *)
(** ** The rows of [send_to_google_sheets], on Python objects *)
(* ===================================================================== *)

Module Store.
Import PyStr PyNum Sheets.
Local Open Scope list_scope.

(** The value of [json.loads] is made of objects held by reference: a
    [dict] and a [list] are mutable and live in the heap, each at an
    address (the heap is a list of objects, an address an index of
    it); a [str] is immutable and stands for itself.  The members of
    the JSON objects are strings, lists or objects. *)

Inductive value : Type :=
| VStr (s : string)
| VRef (l : nat).

Inductive object : Type :=
| ODict (members : gmap string value)
| OList (elements : list value).

(** What the code can read and change: the objects and the clock. *)
Record state : Type := State { objects : list object; clock : world }.

(** A run ends with a value and a state, or an exception leaves the
    code ([AttributeError] and [TypeError] are not caught outside the
    two [try] blocks), or the fuel of the loop runs out. *)
Inductive result (A : Type) : Type :=
| Done (a : A) (s : state)
| Throws
| OutOfFuel.
Arguments Done {A} a s.
Arguments Throws {A}.
Arguments OutOfFuel {A}.

Definition prog (A : Type) : Type := state -> result A.

Definition unit_ {A : Type} (a : A) : prog A := fun s => Done a s.

Definition then_ {A B : Type} (m : prog A) (k : A -> prog B) : prog B :=
  fun s =>
    match m s with
    | Done a s' => k a s'
    | Throws => Throws
    | OutOfFuel => OutOfFuel
    end.

Notation "'let!' x ':=' m 'in' k" := (then_ m (fun x => k))
  (at level 10, x name, m at level 200, k at level 200).

(** [datetime.now()] *)
Definition clock_now : prog datetime :=
  fun s => let '(t, w) := now (clock s) in Done t (State (objects s) w).

(** A display [[...]] or [{...}]: a new object, at a new address. *)
Definition new (o : object) : prog value :=
  fun s =>
    Done (VRef (List.length (objects s)))
         (State (objects s ++ [o]) (clock s)).

(** [d.get(k, dflt)]; an [AttributeError] when [d] is not a [dict]. *)
Definition dict_get (d : value) (k : string) (dflt : value) : prog value :=
  fun s =>
    match d with
    | VRef l =>
        match objects s !! l with
        | Some (ODict members) => Done (default dflt (members !! k)) s
        | _ => Throws
        end
    | VStr _ => Throws
    end.

(** [v.strip()]; an [AttributeError] when [v] is not a [str]. *)
Definition str_strip (v : value) : prog string :=
  fun s =>
    match v with
    | VStr x => Done (strip x) s
    | VRef _ => Throws
    end.

(** [l.append(v)]: the list at the address of [l] is changed in
    place. *)
Definition list_append (l v : value) : prog unit :=
  fun s =>
    match l with
    | VRef a =>
        match objects s !! a with
        | Some (OList elements) =>
            Done tt (State (<[a := OList (elements ++ [v])]> (objects s))
                           (clock s))
        | _ => Throws
        end
    | VStr _ => Throws
    end.

(** [not l] for a list [l]. *)
Definition list_is_empty (l : value) : prog bool :=
  fun s =>
    match l with
    | VRef a =>
        match objects s !! a with
        | Some (OList []) => Done true s
        | Some (OList (_ :: _)) => Done false s
        | _ => Throws
        end
    | VStr _ => Throws
    end.

(** [float(v)]; [None] is the [ValueError] or the [TypeError], which
    the [try] around it catches. *)
Definition float_of_value (v : value) : option num :=
  match v with
  | VStr x => option_map PyFloat (float_of_string x)
  | VRef _ => None
  end.

(** The second [try] of the loop body, lines 242-247: the [strip] of
    the condition is evaluated first, and its [AttributeError] is not
    caught. *)
Definition difference_in (item : value) (weight_received : string)
  : prog num :=
  let! v := dict_get item "weight_sent" (VStr "") in
  let! stripped := str_strip v in
  let! weight_sent_num :=
    (if truthy stripped
     then let! v0 := dict_get item "weight_sent" (VStr "0") in
          unit_ (float_of_value v0)
     else unit_ (Some (PyInt 0))) in
  unit_ (match weight_sent_num with
         | Some a =>
             match received_num weight_received with
             | Some b => sub a b
             | None => PyInt 0
             end
         | None => PyInt 0
         end).

(** The body of the loop, lines 225-265. *)
Definition loop_body (challan_info rows : value)
    (current_date current_timestamp : string) (item : value) : prog unit :=
  let! v := dict_get item "description" (VStr "") in
  let! description := str_strip v in
  if negb (truthy description) then unit_ tt
  else
    let! v := dict_get item "weight_received" (VStr "") in
    let! weight_received := str_strip v in
    let weight_received :=
      if negb (truthy weight_received) || String.eqb weight_received ""
      then "0" else weight_received in
    let status := status_of weight_received in
    let! difference := difference_in item weight_received in
    let! challan_number := dict_get challan_info "challan_number" (VStr "") in
    let! vendor_name := dict_get challan_info "vendor_name" (VStr "") in
    let! weight_sent := dict_get item "weight_sent" (VStr "") in
    let! number_of_bags := dict_get item "number_of_bags" (VStr "") in
    let! plating_color := dict_get item "plating_color" (VStr "") in
    let! row :=
      new (OList [ challan_number; vendor_name; VStr description;
                   weight_sent; VStr weight_received; VStr status;
                   VStr ""; VStr (str difference); number_of_bags;
                   plating_color; VStr ""; VStr current_date;
                   VStr current_timestamp ]) in
    list_append rows row.

(** [for item in table_data: ...], from the index [i] on.  The
    iterator of a list reads the list anew at every step.  A [dict] or
    a [str] would be iterated over its keys or characters, which are
    [str]s, and the first call of the body, [item.get], raises on
    them. *)
Fixpoint for_items (fuel : nat) (challan_info table_data rows : value)
    (current_date current_timestamp : string) (i : nat) : prog unit :=
  fun s =>
    match fuel with
    | O => OutOfFuel
    | S fuel' =>
        match table_data with
        | VRef l =>
            match objects s !! l with
            | Some (OList elements) =>
                match elements !! i with
                | Some item =>
                    (let! _ := loop_body challan_info rows current_date
                                 current_timestamp item in
                     for_items fuel' challan_info table_data rows
                       current_date current_timestamp (S i)) s
                | None => Done tt s
                end
            | Some (ODict members) =>
                if decide (members = ∅) then Done tt s else Throws
            | None => Throws
            end
        | VStr x => if truthy x then Throws else Done tt s
        end
    end.

(** Enough steps for the list as it is when the loop starts. *)
Definition steps (table_data : value) : prog nat :=
  fun s =>
    Done (match table_data with
          | VRef l =>
              match objects s !! l with
              | Some (OList elements) => S (List.length elements)
              | _ => 1%nat
              end
          | VStr _ => 1%nat
          end) s.

(** Lines 212-284, on the object [data]: the address of the list
    [rows] is returned. *)
Definition prepare_rows (data : value) : prog value :=
  let! rows := new (OList []) in
  let! no_info := new (ODict ∅) in
  let! challan_info := dict_get data "challan_info" no_info in
  let! no_items := new (OList []) in
  let! table_data := dict_get data "table_data" no_items in
  let! t1 := clock_now in
  let current_date := strftime_date t1 in
  let! t2 := clock_now in
  let current_timestamp := strftime_timestamp t2 in
  let! fuel := steps table_data in
  let! _ := for_items fuel challan_info table_data rows
              current_date current_timestamp 0 in
  let! empty := list_is_empty rows in
  let! _ :=
    (if empty then
       let! challan_number :=
         dict_get challan_info "challan_number" (VStr "") in
       let! vendor_name := dict_get challan_info "vendor_name" (VStr "") in
       let! row :=
         new (OList [ challan_number; vendor_name; VStr ""; VStr "";
                      VStr "0"; VStr "Not Received"; VStr ""; VStr "0";
                      VStr ""; VStr ""; VStr ""; VStr current_date;
                      VStr current_timestamp ]) in
       list_append rows row
     else unit_ tt) in
  unit_ rows.

(** *** Reading a result back *)

Definition as_str (v : value) : option string :=
  match v with
  | VStr x => Some x
  | VRef _ => None
  end.

Definition elements_at (h : list object) (v : value) : option (list value) :=
  match v with
  | VRef l =>
      match h !! l with
      | Some (OList elements) => Some elements
      | _ => None
      end
  | VStr _ => None
  end.

(** The list of strings at [v]. *)
Definition load_row (h : list object) (v : value) : option row :=
  match elements_at h v with
  | Some elements => mapM as_str elements
  | None => None
  end.

(** The list of lists of strings at [v]. *)
Definition load_rows (h : list object) (v : value) : option (list row) :=
  match elements_at h v with
  | Some elements => mapM (load_row h) elements
  | None => None
  end.

(** *** A document in the heap *)

(** At [v] there is a JSON object whose members are the strings of
    [d]. *)
Definition holds_strings (h : list object) (v : value)
    (d : gmap string string) : Prop :=
  exists l, v = VRef l /\ h !! l = Some (ODict (VStr <$> d)).

(** At [v] there is a list of such objects. *)
Definition holds_items (h : list object) (v : value)
    (items : list (gmap string string)) : Prop :=
  exists l elements,
    v = VRef l /\ h !! l = Some (OList elements) /\
    Forall2 (holds_strings h) elements items.

(** At [v] there is the document [doc]: a [dict] whose members
    [challan_info] and [table_data], when present, are as in [doc];
    other members are left free. *)
Definition holds_document (h : list object) (v : value) (doc : document)
  : Prop :=
  exists l members,
    v = VRef l /\ h !! l = Some (ODict members) /\
    option_Forall2 (holds_strings h)
      (members !! "challan_info") (challan_info doc) /\
    option_Forall2 (holds_items h)
      (members !! "table_data") (table_data doc).

(** *** What a run leaves in place *)

(** Every object of [h] is in [h'], unchanged. *)
Definition kept (h h' : list object) : Prop :=
  forall l o, h !! l = Some o -> h' !! l = Some o.

(** The same, the object at [r] apart. *)
Definition kept_but (r : nat) (h h' : list object) : Prop :=
  forall l o, l <> r -> h !! l = Some o -> h' !! l = Some o.

(** The list at [r] holds the rows [acc], each a list of strings at an
    address of its own. *)
Definition holds_rows (h : list object) (r : nat) (acc : list row) : Prop :=
  exists elements,
    h !! r = Some (OList elements) /\
    Forall2 (fun v row => exists l, v = VRef l /\ l <> r /\
                            h !! l = Some (OList (VStr <$> row)))
      elements acc.

(** A heap with the document of the worked example, one item being
    listed twice and a blank one between, and with two objects that are
    not part of it. *)
Definition example_heap : list object :=
  [ OList [VStr "earlier result"];
    ODict (<["challan_info" := VRef 2%nat]>
             (<["table_data" := VRef 3%nat]>
                (<["source" := VStr "photo.png"]> ∅)));
    ODict (VStr <$> example_info);
    OList [VRef 4%nat; VRef 5%nat; VRef 4%nat];
    ODict (VStr <$> example_item "4");
    ODict (VStr <$> (<["description" := "  "]> ∅));
    ODict ∅ ].

(** The document it holds, at the address [1]. *)
Definition example_held : document :=
  Document (Some example_info)
    (Some [example_item "4"; <["description" := "  "]> ∅; example_item "4"]).

(** A clock that moves on between the first and the second reading. *)
Definition example_clock : world :=
  World (fun n => DateTime 2024 1 2 10 0 (if n is O then 0 else 1)) 0.

End Store.

(* ===================================================================== *)
(** ** Facts about the [str] methods *)
(* ===================================================================== *)

Module PyStrFacts.
Import PyStr.
Local Open Scope list_scope.

Lemma chars_of_chars (l : list ascii) : chars (of_chars l) = l.
Proof. apply list_ascii_of_string_of_list_ascii. Qed.

Lemma of_chars_chars (s : string) : of_chars (chars s) = s.
Proof. apply string_of_list_ascii_of_string. Qed.

Lemma ascii_eqb_eq (a b : ascii) : ascii_eqb a b = true <-> a = b.
Proof.
  unfold ascii_eqb, code. rewrite N.eqb_eq. split.
  - intros H. rewrite <- (ascii_N_embedding a), <- (ascii_N_embedding b).
    now rewrite H.
  - now intros ->.
Qed.

Lemma ascii_eqb_refl (a : ascii) : ascii_eqb a a = true.
Proof. now apply ascii_eqb_eq. Qed.

Lemma truthy_of_chars (l : list ascii) :
  truthy (of_chars l) = false <-> l = [].
Proof. destruct l; simpl; split; congruence. Qed.

(** *** Stripping *)

Lemma lstrip_split (l : list ascii) :
  exists ws, forallb is_space ws = true /\ l = ws ++ lstrip_chars l.
Proof.
  induction l as [|c l IH]; simpl.
  - now exists [].
  - destruct (is_space c) eqn:E.
    + destruct IH as (ws & Hws & Hl).
      exists (c :: ws). simpl. rewrite E, Hws. split; [easy|].
      now rewrite <- Hl.
    + now exists [].
Qed.

Lemma lstrip_nil (l : list ascii) :
  lstrip_chars l = [] <-> forallb is_space l = true.
Proof.
  induction l as [|c l IH]; simpl; [easy|].
  destruct (is_space c); simpl; [exact IH|]. split; congruence.
Qed.

Lemma forallb_rev {A} (f : A -> bool) (l : list A) :
  forallb f (rev l) = forallb f l.
Proof.
  induction l as [|a l IH]; simpl; [easy|].
  rewrite forallb_app, IH. simpl. rewrite andb_true_r. apply andb_comm.
Qed.

Lemma strip_split (l : list ascii) :
  exists ws1 ws2,
    forallb is_space ws1 = true /\ forallb is_space ws2 = true /\
    l = ws1 ++ strip_chars l ++ ws2.
Proof.
  destruct (lstrip_split l) as (ws1 & H1 & E1).
  destruct (lstrip_split (rev (lstrip_chars l))) as (ws2 & H2 & E2).
  exists ws1, (rev ws2). split; [easy|]. split.
  - now rewrite forallb_rev.
  - unfold strip_chars, rstrip_chars.
    rewrite <- rev_app_distr, <- E2, rev_involutive. exact E1.
Qed.

Lemma strip_nil (l : list ascii) :
  strip_chars l = [] <-> forallb is_space l = true.
Proof.
  unfold strip_chars, rstrip_chars. split.
  - intros H. apply (f_equal (@rev ascii)) in H.
    rewrite rev_involutive in H. simpl in H.
    apply lstrip_nil in H. rewrite forallb_rev in H.
    destruct (lstrip_split l) as (ws & Hws & E).
    rewrite E, forallb_app, Hws, H. reflexivity.
  - intros H. apply lstrip_nil in H. now rewrite H.
Qed.

(** [not s.strip()] holds exactly for the strings made of whitespace
    only, the empty one among them. *)
Lemma blank_spec (s : string) : blank s = whitespace_only s.
Proof.
  apply eq_true_iff_eq. unfold blank, whitespace_only, strip. rewrite negb_true_iff, truthy_of_chars.
  apply strip_nil.
Qed.

Lemma truthy_strip (s : string) :
  truthy (strip s) = negb (blank s).
Proof. unfold blank. now rewrite negb_involutive. Qed.

Lemma in_strip (c : ascii) (l : list ascii) :
  In c (strip_chars l) -> In c l.
Proof.
  intros H. destruct (strip_split l) as (ws1 & ws2 & _ & _ & E).
  rewrite E. apply in_or_app. right. apply in_or_app. now left.
Qed.

(** *** [find] and [rfind] *)

Lemma find_from_absent (c : ascii) (l : list ascii) (i : Z) :
  ~ In c l -> find_from c l i = -1.
Proof.
  revert i. induction l as [|x l IH]; intros i H; simpl; [easy|].
  destruct (ascii_eqb x c) eqn:E.
  - apply ascii_eqb_eq in E. subst. exfalso. apply H. now left.
  - apply IH. intros Hin. apply H. now right.
Qed.

Lemma find_from_present (c : ascii) (l : list ascii) (i : Z) :
  In c l -> i <= find_from c l i.
Proof.
  revert i. induction l as [|x l IH]; intros i H; simpl; [easy|].
  destruct (ascii_eqb x c) eqn:E; [lia|].
  destruct H as [-> | H]; [now rewrite ascii_eqb_refl in E|].
  specialize (IH (i + 1) H). lia.
Qed.

Lemma rfind_from_absent (c : ascii) (l : list ascii) (i last : Z) :
  ~ In c l -> rfind_from c l i last = last.
Proof.
  revert i last. induction l as [|x l IH]; intros i last H; simpl; [easy|].
  destruct (ascii_eqb x c) eqn:E.
  - apply ascii_eqb_eq in E. subst. exfalso. apply H. now left.
  - apply IH. intros Hin. apply H. now right.
Qed.

Lemma rfind_from_lower (c : ascii) (l : list ascii) (i last : Z) :
  -1 <= last -> 0 <= i -> -1 <= rfind_from c l i last.
Proof.
  revert i last. induction l as [|x l IH]; intros i last H1 H2; simpl;
    [easy|].
  apply IH; [destruct (ascii_eqb x c)|]; lia.
Qed.

(** [s.rfind(c) + 1] is never [-1]. *)
Lemma rfind_succ (s : string) (c : ascii) : rfind s c + 1 <> -1.
Proof.
  unfold rfind.
  pose proof (rfind_from_lower c (chars s) 0 (-1) ltac:(lia) ltac:(lia)).
  lia.
Qed.

(** *** Slices *)

Lemma slice_to_zero (s : string) (a : Z) : 0 <= a -> slice s a 0 = "".
Proof.
  intros Ha. unfold slice. cbv zeta.
  set (len := Z.of_nat (List.length (chars s))).
  assert (Hlen : 0 <= len) by (unfold len; lia).
  assert (H0 : clamp len 0 = 0).
  { unfold clamp. simpl. destruct (len <? 0) eqn:E; [|reflexivity].
    apply Z.ltb_lt in E. lia. }
  assert (Hlo : 0 <= clamp len a).
  { unfold clamp. destruct (a <? 0); destruct (_ <? 0) eqn:E1;
      try lia; destruct (len <? _) eqn:E2; try lia;
      apply Z.ltb_ge in E1; lia. }
  rewrite H0. replace (Z.to_nat (0 - clamp len a)) with O by lia.
  reflexivity.
Qed.

(** *** Containment *)

Lemma is_prefix_spec (p l : list ascii) :
  is_prefix p l = true <-> exists b, l = p ++ b.
Proof.
  revert l. induction p as [|x p IH]; intros l; simpl.
  - split; [now exists l | easy].
  - destruct l as [|y l].
    + split; [easy | intros (b & Hb); discriminate].
    + rewrite andb_true_iff, ascii_eqb_eq, IH. split.
      * intros (-> & b & ->). now exists b.
      * intros (b & Hb). injection Hb as -> ->. split; [easy|now exists b].
Qed.

Lemma contains_spec (p l : list ascii) :
  contains_chars p l = true <-> infix p l.
Proof.
  unfold infix. induction l as [|y l IH]; simpl.
  - rewrite orb_false_r, is_prefix_spec. split.
    + intros (b & Hb). now exists [], b.
    + intros (a & b & Hab). destruct a; [now exists b | discriminate].
  - rewrite orb_true_iff, is_prefix_spec, IH. split.
    + intros [(b & Hb) | (a & b & Hab)].
      * now exists [], b.
      * exists (y :: a), b. simpl. now rewrite Hab.
    + intros (a & b & Hab). destruct a as [|z a]; simpl in Hab.
      * left. now exists b.
      * right. injection Hab as _ ->. now exists a, b.
Qed.

Lemma infix_rev (p l : list ascii) : infix p l -> infix (rev p) (rev l).
Proof.
  intros (a & b & ->). exists (rev b), (rev a).
  now rewrite !rev_app_distr, app_assoc.
Qed.

Lemma infix_lstrip (c : ascii) (p l : list ascii) :
  is_space c = false -> infix (c :: p) l -> infix (c :: p) (lstrip_chars l).
Proof.
  intros Hc (a & b & ->). induction a as [|x a IH]; simpl.
  - rewrite Hc. now exists [], b.
  - destruct (is_space x).
    + exact IH.
    + now exists (x :: a), b.
Qed.

Lemma infix_of_lstrip (p l : list ascii) :
  infix p (lstrip_chars l) -> infix p l.
Proof.
  intros (a & b & E). destruct (lstrip_split l) as (ws & _ & El).
  exists (ws ++ a), b. rewrite El at 1. rewrite E. now rewrite app_assoc.
Qed.

Lemma infix_strip (p l : list ascii) :
  tight p = true -> infix p (strip_chars l) <-> infix p l.
Proof.
  unfold tight, strip_chars, rstrip_chars.
  destruct p as [|c p'] eqn:Ep; [easy|].
  destruct (rev (c :: p')) as [|d q] eqn:Er; [easy|].
  rewrite andb_true_iff, !negb_true_iff. intros (Hc & Hd).
  assert (Hrev : rev (d :: q) = c :: p')
    by (now rewrite <- Er, rev_involutive).
  split.
  - intros H. apply infix_of_lstrip.
    apply infix_rev in H. rewrite rev_involutive, Er in H.
    apply infix_of_lstrip in H.
    apply infix_rev in H. now rewrite rev_involutive, Hrev in H.
  - intros H. apply (infix_lstrip c p' l Hc) in H.
    apply infix_rev in H. rewrite Er in H.
    apply (infix_lstrip d q _ Hd) in H.
    apply infix_rev in H. now rewrite Hrev in H.
Qed.

(** [sub in s.strip()] and [sub in s] agree for such a needle. *)
Lemma contains_strip (sub s : string) :
  tight (chars sub) = true ->
  contains sub (strip s) = contains sub s.
Proof.
  intros Ht. unfold contains, strip. rewrite chars_of_chars.
  apply eq_true_iff_eq. rewrite !contains_spec. now apply infix_strip.
Qed.

End PyStrFacts.

(* ===================================================================== *)
(** ** The numbers on known values *)
(* ===================================================================== *)

Module PyNumFacts.
Import PyStr PyNum.

(** [float("0.1")] is [0x3FB999999999999A]. *)
Example float_tenth :
  float_of_string "0.1" = Some (S754_finite false 7205759403792794 (-56)).
Proof. vm_compute. reflexivity. Qed.

Example float_forms :
  float_of_string " 1_0.5e1 " = float_of_string "105" /\
  float_of_string "-0" = Some (S754_zero true) /\
  float_of_string "1e400" = Some (S754_infinity false) /\
  float_of_string "InFinity" = Some (S754_infinity false) /\
  float_of_string "4.9e-324" = Some (S754_finite false 1 (-1074)).
Proof. vm_compute. repeat split. Qed.

Example float_rejects :
  map float_of_string [""; "."; "1e"; "1__0"; "_1"; "0x10"; "ten"; "1 2"]
  = [None; None; None; None; None; None; None; None].
Proof. vm_compute. reflexivity. Qed.

(** [str(float("0.3") - float("0.1"))] *)
Example str_inexact :
  option_map str
    (match float_of_string "0.3", float_of_string "0.1" with
     | Some a, Some b => Some (sub (PyFloat a) (PyFloat b))
     | _, _ => None
     end)
  = Some "0.19999999999999998".
Proof. vm_compute. reflexivity. Qed.

Example str_layouts :
  map (fun s => option_map str_float (float_of_string s))
    ["1e23"; "1e16"; "1e15"; "0.0001"; "0.00001"; "123456789.125";
     "9007199254740993"; "nan"; "-inf"]
  = map Some
    ["1e+23"; "1e+16"; "1000000000000000.0"; "0.0001"; "1e-05";
     "123456789.125"; "9007199254740992.0"; "nan"; "-inf"].
Proof. vm_compute. reflexivity. Qed.

Example str_of_int_zero : str (sub (PyInt 0) (PyInt 0)) = "0".
Proof. reflexivity. Qed.

End PyNumFacts.

(* ===================================================================== *)
(** ** The JSON isolation of [analyze_image_with_gemini] *)
(* ===================================================================== *)

Module GeminiFacts.
Import PyStr PyStrFacts Gemini.

Lemma truthy_nonempty (s : string) : s <> "" -> truthy s = true.
Proof. destruct s; [congruence | reflexivity]. Qed.

Lemma find_absent (s : string) (c : ascii) :
  ~ has_char c s -> find (strip s) c = -1.
Proof.
  intros H. unfold find, strip. rewrite chars_of_chars.
  apply find_from_absent. intros Hin. apply H. now apply in_strip.
Qed.

(** When the text has an opening brace but no closing one, the test
    [end_idx != -1] still succeeds, because [end_idx] is
    [rfind(...) + 1 = 0]: [json.loads] is called, on the empty slice. *)
Lemma isolate_json_no_close (text : string) :
  text <> "" ->
  In "{"%char (chars (strip text)) ->
  ~ In "}"%char (chars (strip text)) ->
  isolate_json text = JsonLoads "".
Proof.
  intros Hne Hopen Hclose. unfold isolate_json.
  rewrite (truthy_nonempty _ Hne). cbn [negb].
  assert (Hs : 0 <= find (strip text) "{"%char)
    by (apply find_from_present, Hopen).
  assert (He : rfind (strip text) "}"%char = -1)
    by (apply rfind_from_absent, Hclose).
  destruct (find _ _ =? -1) eqn:E1; [apply Z.eqb_eq in E1; lia|].
  rewrite He. cbn [negb Z.add Z.eqb Z.pos_sub andb Z.opp].
  now rewrite slice_to_zero.
Qed.

(** The same on the shortest such text. *)
Example isolate_json_open_brace : isolate_json "{" = JsonLoads "".
Proof. reflexivity. Qed.

(** The intended path: the slice from the first [{] to the last [}]. *)
Example isolate_json_wrapped :
  isolate_json " Here it is: {1: {2}} (end) " = JsonLoads "{1: {2}}".
Proof. reflexivity. Qed.

(** C2: the code misses the claim on a text with a [{] and no [}].  At
    the response text ["{"], [start_idx] is [0] and [end_idx] is
    [rfind('}') + 1 = 0], so the test [end_idx != -1] passes: the
    no-JSON-found error is not reported, and [json.loads] is called, on
    the empty slice [content[0:0]]; the outcome is whatever the parser
    makes of the empty text, a decode error for [json.loads]. *)
Theorem C2_unclosed_brace :
  (~ has_char "}" "{") /\
  find (strip "{") "{"%char = 0 /\
  rfind (strip "{") "}"%char + 1 = 0 /\
  isolate_json "{" = JsonLoads "" /\
  (forall content, isolate_json "{" <> NoJsonFound content) /\
  (forall (A : Type) (json_loads : string -> option A),
     analyze_image_with_gemini json_loads "{" =
       match json_loads "" with
       | Some doc => Extracted doc
       | None => ErrMalformedJson
       end).
Proof.
  split; [|repeat split].
  - intros [H | []]. discriminate H.
  - intros content H. discriminate H.
Qed.

End GeminiFacts.

(* ===================================================================== *)
(** ** The classification of the endpoint's answer *)
(* ===================================================================== *)

Module ClassifyFacts.
Import PyStr PyStrFacts Sheets.

Lemma raise_for_status_ok (status_code : Z) :
  ~ (400 <= status_code < 600) -> raise_for_status status_code = None.
Proof.
  intros H. unfold raise_for_status.
  destruct (400 <=? status_code) eqn:E1; [|reflexivity].
  destruct (status_code <? 600) eqn:E2; [|reflexivity].
  apply Z.leb_le in E1. apply Z.ltb_lt in E2. lia.
Qed.

Lemma raise_for_status_error (status_code : Z) :
  400 <= status_code < 600 ->
  raise_for_status status_code = Some (HTTPError status_code).
Proof.
  intros [H1 H2]. unfold raise_for_status.
  apply Z.leb_le in H1. apply Z.ltb_lt in H2. now rewrite H1, H2.
Qed.

(** Without an [HTTPError], the outcome is decided by the tests on the
    body, which see the same occurrences as on the unstripped text. *)
Lemma classify_body (rows : list row) (status_code : Z) (text : string) :
  ~ (400 <= status_code < 600) ->
  classify rows (Response status_code text) =
    if contains "Success" text then (true, Added (List.length rows))
    else if contains "Unauthorized" text then (false, Unauthorized)
    else if contains "Invalid data format" text then (false, InvalidFormat)
    else if contains "No postData received" text then (false, NoData)
    else (false, Returned (strip text)).
Proof.
  intros H. cbn [classify]. rewrite (raise_for_status_ok _ H).
  now rewrite !contains_strip by reflexivity.
Qed.

Lemma unclassified_spec (text : string) :
  unclassified text = true ->
  contains "Success" text = false /\
  contains "Unauthorized" text = false /\
  contains "Invalid data format" text = false /\
  contains "No postData received" text = false.
Proof.
  unfold unclassified, known_substrings. cbn [forallb].
  rewrite !andb_true_iff, !negb_true_iff. tauto.
Qed.

(** C3, as stated, fails: a 404 answer whose body has none of the
    known substrings is reported as a network error. *)
Lemma C3_counterexample :
  ~ (forall (rows : list row) (status_code : Z) (text : string),
       ~ (200 <= status_code < 300) ->
       unclassified text = true ->
       exists body,
         classify rows (Response status_code text) = (false, Returned body)).
Proof.
  intros H. destruct (H [] 404 "Not Found") as (body & E).
  - lia.
  - reflexivity.
  - discriminate E.
Qed.

(** C3, amended: for a response with a non-2xx status code whose body
    has none of the known substrings, the outcome is the unknown
    response (carrying the stripped body) when the code is outside
    400..599, and the network error of [raise_for_status] when it is
    inside. *)
Theorem C3_non_2xx (rows : list row) (status_code : Z) (text : string) :
  ~ (200 <= status_code < 300) ->
  unclassified text = true ->
  (~ (400 <= status_code < 600) ->
     classify rows (Response status_code text)
     = (false, Returned (strip text))) /\
  (400 <= status_code < 600 ->
     classify rows (Response status_code text)
     = (false, NetworkError (HTTPError status_code))).
Proof.
  intros _ Hu. apply unclassified_spec in Hu as (H1 & H2 & H3 & H4).
  split; intros Hc.
  - rewrite (classify_body _ _ _ Hc). now rewrite H1, H2, H3, H4.
  - cbn [classify]. now rewrite (raise_for_status_error _ Hc).
Qed.

Lemma C3_non_2xx_witness :
  classify [] (Response 304 " Not Modified ")
    = (false, Returned (strip " Not Modified ")) /\
  classify [] (Response 503 "Service Unavailable")
    = (false, NetworkError (HTTPError 503)).
Proof.
  split.
  - apply (C3_non_2xx [] 304 " Not Modified "); [lia | reflexivity | lia].
  - apply (C3_non_2xx [] 503 "Service Unavailable");
      [lia | reflexivity | lia].
Defined.

(** C8, as stated, fails in its last part: the unknown-response
    outcome carries the body with the surrounding whitespace removed,
    not the raw body. *)
Lemma C8_counterexample :
  ~ (forall (rows : list row) (status_code : Z) (text : string),
       200 <= status_code < 300 ->
       unclassified text = true ->
       classify rows (Response status_code text) = (false, Returned text)).
Proof.
  intros H. specialize (H [] 200 " ok " ltac:(lia) eq_refl).
  vm_compute in H. discriminate H.
Qed.

(** C8, amended: on a 2xx answer the body is tested for ["Success"]
    first, so a body with both ["Success"] and ["Unauthorized"] gives
    success with the row count; then for ["Unauthorized"], ["Invalid
    data format"], ["No postData received"], in this order; any other
    body gives the unknown response carrying the stripped body. *)
Theorem C8_priority (rows : list row) (status_code : Z) (text : string) :
  200 <= status_code < 300 ->
  (contains "Success" text = true ->
     classify rows (Response status_code text)
     = (true, Added (List.length rows))) /\
  (contains "Success" text = false ->
   contains "Unauthorized" text = true ->
     classify rows (Response status_code text) = (false, Unauthorized)) /\
  (contains "Success" text = false ->
   contains "Unauthorized" text = false ->
   contains "Invalid data format" text = true ->
     classify rows (Response status_code text) = (false, InvalidFormat)) /\
  (contains "Success" text = false ->
   contains "Unauthorized" text = false ->
   contains "Invalid data format" text = false ->
   contains "No postData received" text = true ->
     classify rows (Response status_code text) = (false, NoData)) /\
  (unclassified text = true ->
     classify rows (Response status_code text)
     = (false, Returned (strip text))).
Proof.
  intros Hc.
  assert (Hok : ~ (400 <= status_code < 600)) by lia.
  rewrite (classify_body _ _ _ Hok).
  repeat split.
  - now intros ->.
  - now intros -> ->.
  - now intros -> -> ->.
  - now intros -> -> -> ->.
  - intros Hu. apply unclassified_spec in Hu as (H1 & H2 & H3 & H4).
    now rewrite H1, H2, H3, H4.
Qed.

Lemma C8_priority_witness :
  classify [[]; []] (Response 200 "Unauthorized? No: Success")
    = (true, Added 2) /\
  classify [] (Response 201 " queued  ") = (false, Returned "queued").
Proof.
  split.
  - apply (C8_priority [[]; []] 200 "Unauthorized? No: Success");
      [lia | reflexivity].
  - apply (C8_priority [] 201 " queued  "); [lia | reflexivity].
Defined.

End ClassifyFacts.

(* ===================================================================== *)
(** ** The row derivation *)
(* ===================================================================== *)

Module RowFacts.
Import PyStr PyStrFacts PyNum Sheets.
Local Open Scope list_scope.

(** *** The loop as a comprehension *)

Lemma emits_described (item : gmap string string) :
  truthy (strip (get item "description" "")) = described item.
Proof. unfold described. now rewrite truthy_strip, blank_spec. Qed.

Lemma loop_spec (info : gmap string string) (d t : string)
    (items : list (gmap string string)) (rows : list row) :
  loop info d t items rows
  = rows ++ map (row_of info d t) (List.filter described items).
Proof.
  revert rows. induction items as [|item rest IH]; intros rows.
  - cbn. now rewrite app_nil_r.
  - cbn [loop List.filter]. rewrite emits_described.
    destruct (described item); cbn [negb].
    + rewrite IH, <- app_assoc. reflexivity.
    + apply IH.
Qed.

Lemma rows_at_spec (data : document) (d t : string) :
  rows_at data d t =
    match List.filter described (default [] (table_data data)) with
    | [] => [fallback_row (default ∅ (challan_info data)) d t]
    | kept => map (row_of (default ∅ (challan_info data)) d t) kept
    end.
Proof.
  unfold rows_at. rewrite loop_spec. cbn [app].
  destruct (List.filter described _); reflexivity.
Qed.

Lemma derive_rows_spec (data : document) (w : world) :
  fst (derive_rows data w)
  = rows_at data (strftime_date (reading w (calls w)))
      (strftime_timestamp (reading w (S (calls w)))).
Proof. reflexivity. Qed.

Lemma filter_described_nil (items : list (gmap string string)) :
  (forall item, In item items ->
     whitespace_only (get item "description" "") = true) ->
  List.filter described items = [].
Proof.
  induction items as [|item rest IH]; intros H; [reflexivity|].
  cbn [List.filter]. unfold described at 1.
  rewrite (H item) by now left. cbn [negb].
  apply IH. intros i Hi. apply H. now right.
Qed.

(** *** Normalisation of the two weights *)

Lemma truthy_eqb_empty (s : string) :
  truthy s = true -> String.eqb s "" = false.
Proof. destruct s; [discriminate | reflexivity]. Qed.

Lemma normalize_received_spec (item : gmap string string) :
  normalize_received item
  = if whitespace_only (get item "weight_received" "") then "0"
    else strip (get item "weight_received" "").
Proof.
  unfold normalize_received.
  rewrite truthy_strip, blank_spec, negb_involutive.
  destruct (whitespace_only _) eqn:E; [reflexivity|].
  cbn [orb]. rewrite truthy_eqb_empty; [reflexivity|].
  now rewrite truthy_strip, blank_spec, E.
Qed.

(** A present, non-blank member is read the same with either default. *)
Lemma get_default_irrelevant (item : gmap string string) (k d : string) :
  whitespace_only (get item k "") = false -> get item k d = get item k "".
Proof.
  unfold get. destruct (item !! k); [reflexivity|].
  cbn. discriminate.
Qed.

Lemma sent_num_spec (item : gmap string string) :
  sent_num item
  = if whitespace_only (get item "weight_sent" "") then Some (PyInt 0)
    else option_map PyFloat (float_of_string (get item "weight_sent" "")).
Proof.
  unfold sent_num. rewrite truthy_strip, blank_spec.
  destruct (whitespace_only _) eqn:E; cbn [negb]; [reflexivity|].
  now rewrite (get_default_irrelevant _ _ _ E).
Qed.

Lemma float_of_zero : float_of_string "0" = Some (S754_zero false).
Proof. reflexivity. Qed.

Lemma received_num_zero : received_num "0" = Some (PyInt 0).
Proof. reflexivity. Qed.

Lemma received_num_other (s : string) :
  s <> "0" -> received_num s = option_map PyFloat (float_of_string s).
Proof.
  intros H. unfold received_num.
  destruct (String.eqb s "0") eqn:E; [|reflexivity].
  apply String.eqb_eq in E. contradiction.
Qed.

(** *** The claims about one row *)

(** C4: in the row of an item, the status (sixth field) is
    ["Received"] when the normalized [weight_received] converts to a
    float above zero, ["Not Received"] when it is the literal ["0"] or
    does not convert; the computation always yields one of the two
    texts, no error leaving it. *)
Theorem C4_status (info : gmap string string) (d t : string)
    (item : gmap string string) :
  (forall f, float_of_string (normalize_received item) = Some f ->
             SFltb (S754_zero false) f = true ->
             nth 5 (row_of info d t item) "" = "Received") /\
  (normalize_received item = "0" ->
     nth 5 (row_of info d t item) "" = "Not Received") /\
  (float_of_string (normalize_received item) = None ->
     nth 5 (row_of info d t item) "" = "Not Received") /\
  (nth 5 (row_of info d t item) "" = "Received" \/
   nth 5 (row_of info d t item) "" = "Not Received").
Proof.
  cbn [row_of item_row nth]. unfold status_of.
  destruct (String.eqb (normalize_received item) "0") eqn:E.
  - apply String.eqb_eq in E. rewrite E, received_num_zero. cbn.
    repeat split; auto.
    intros f Hf. rewrite float_of_zero in Hf. injection Hf as <-.
    discriminate.
  - apply String.eqb_neq in E. rewrite (received_num_other _ E).
    repeat split.
    + intros f -> Hf. cbn. now rewrite Hf.
    + intros H. contradiction.
    + now intros ->.
    + destruct (float_of_string _) as [f|]; cbn; [|now right].
      destruct (SFltb _ f); [now left | now right].
Qed.

Lemma C4_status_witness :
  nth 5 (row_of example_info "" "" (example_item " 4.5 ")) "" = "Received"
  /\ nth 5 (row_of example_info "" "" (example_item "  ")) ""
     = "Not Received"
  /\ nth 5 (row_of example_info "" "" (example_item "n/a")) ""
     = "Not Received".
Proof.
  split; [|split].
  - apply (proj1 (C4_status example_info "" "" (example_item " 4.5 "))
             (S754_finite false 5066549580791808 (-50)));
      vm_compute; reflexivity.
  - apply (proj1 (proj2
             (C4_status example_info "" "" (example_item "  ")))).
    vm_compute; reflexivity.
  - apply (proj1 (proj2 (proj2
             (C4_status example_info "" "" (example_item "n/a"))))).
    vm_compute; reflexivity.
Defined.

(** The comparison is made on the float: a text whose value underflows
    to zero, or [nan], gives ["Not Received"]. *)
Example status_of_underflow :
  status_of "1e-400" = "Not Received" /\ status_of "nan" = "Not Received".
Proof. vm_compute. split; reflexivity. Qed.

(** C10: in the row of an item, the fourth field is the item's
    [weight_sent] exactly as it stands, while the fifth is
    [weight_received] stripped, with ["0"] for a blank one; so the
    emitted [weight_sent] can differ from the number the difference is
    computed from, as for [" 10 "], emitted as it is and counted as
    [10.0]. *)
Theorem C10_weight_fields (info : gmap string string) (d t : string)
    (item : gmap string string) :
  nth 3 (row_of info d t item) "" = get item "weight_sent" "" /\
  nth 4 (row_of info d t item) ""
  = (if whitespace_only (get item "weight_received" "") then "0"
     else strip (get item "weight_received" "")) /\
  exists padded : gmap string string,
    nth 3 (row_of info d t padded) "" = " 10 " /\
    nth 4 (row_of info d t padded) "" = "4" /\
    sent_num padded = option_map PyFloat (float_of_string "10") /\
    nth 7 (row_of info d t padded) "" = "6.0".
Proof.
  split; [reflexivity|]. split.
  - cbn [row_of item_row nth]. apply normalize_received_spec.
  - exists (<["weight_sent" := " 10 "]>
              (<["weight_received" := " 4 "]> ∅)).
    cbn [row_of item_row nth]. vm_compute. auto.
Qed.

(** *** The claims about the row sequence *)

(** C1, as stated, fails: on the worked example the difference field
    is not ["10"]. *)
Lemma C1_counterexample :
  fst (derive_rows (example_document "") example_world)
  <> [["J1"; "V1"; "Bolt"; "10"; "0"; "Not Received"; ""; "10"; "2";
       "Zinc"; ""; "2024-01-02"; "2024-01-02 10:00:00"]].
Proof. vm_compute. discriminate. Qed.

(** C1, amended: on the worked example, at clock reading 2024-01-02
    10:00:00, the derivation gives exactly one row, the one of the
    specification except for the difference field, which is ["10.0"],
    the text of the float [10.0 - 0]. *)
Theorem C1_worked_example :
  fst (derive_rows (example_document "") example_world)
  = [["J1"; "V1"; "Bolt"; "10"; "0"; "Not Received"; ""; "10.0"; "2";
      "Zinc"; ""; "2024-01-02"; "2024-01-02 10:00:00"]].
Proof. vm_compute. reflexivity. Qed.

(** C6: when every line item has an empty or whitespace-only
    description (no item at all, or no [table_data] member, included),
    the derivation gives exactly the fallback row: challan number and
    vendor name of the document, empty item, weight sent, remarks,
    bags, colour and photo fields, ["0"] received, ["Not Received"],
    difference ["0"], and the date and timestamp of the clock. *)
Theorem C6_fallback (data : document) (w : world) :
  (forall item, In item (default [] (table_data data)) ->
     whitespace_only (get item "description" "") = true) ->
  fst (derive_rows data w)
  = [[get (default ∅ (challan_info data)) "challan_number" "";
      get (default ∅ (challan_info data)) "vendor_name" "";
      ""; ""; "0"; "Not Received"; ""; "0"; ""; ""; "";
      strftime_date (reading w (calls w));
      strftime_timestamp (reading w (S (calls w)))]].
Proof.
  intros H. rewrite derive_rows_spec, rows_at_spec.
  now rewrite (filter_described_nil _ H).
Qed.

Lemma C6_fallback_witness :
  fst (derive_rows (Document (Some example_info) None) example_world)
  = [["J1"; "V1"; ""; ""; "0"; "Not Received"; ""; "0"; ""; ""; "";
      "2024-01-02"; "2024-01-02 10:00:00"]]
  /\ fst (derive_rows
            (Document None (Some [<["description" := "  "]> ∅; ∅]))
            example_world)
  = [[""; ""; ""; ""; "0"; "Not Received"; ""; "0"; ""; ""; "";
      "2024-01-02"; "2024-01-02 10:00:00"]].
Proof.
  split.
  - apply (C6_fallback (Document (Some example_info) None) example_world).
    intros item [].
  - apply (C6_fallback
             (Document None (Some [<["description" := "  "]> ∅; ∅]))
             example_world).
    intros item [<- | [<- | []]]; reflexivity.
Defined.

(** C7: an item whose description is empty or whitespace-only gives no
    row (the rows are those of the document without it); and when some
    item has another description, the rows are those of the items with
    such a description, one each, in the order of the document. *)
Theorem C7_described_items (info : option (gmap string string))
    (items : list (gmap string string)) (w : world) :
  (forall before item after,
     items = before ++ item :: after ->
     whitespace_only (get item "description" "") = true ->
     fst (derive_rows (Document info (Some items)) w)
     = fst (derive_rows (Document info (Some (before ++ after))) w)) /\
  ((exists item, In item items /\
      whitespace_only (get item "description" "") = false) ->
     fst (derive_rows (Document info (Some items)) w)
     = map (row_of (default ∅ info)
              (strftime_date (reading w (calls w)))
              (strftime_timestamp (reading w (S (calls w)))))
         (List.filter described items)
     /\ List.length (fst (derive_rows (Document info (Some items)) w))
        = List.length (List.filter described items)).
Proof.
  split.
  - intros before item after -> Hb.
    rewrite !derive_rows_spec, !rows_at_spec.
    cbn [table_data challan_info default id].
    rewrite !List.filter_app. cbn [List.filter].
    unfold described at 2. rewrite Hb. reflexivity.
  - intros (item & Hin & Hd).
    assert (E : fst (derive_rows (Document info (Some items)) w)
                = map (row_of (default ∅ info)
                         (strftime_date (reading w (calls w)))
                         (strftime_timestamp (reading w (S (calls w)))))
                    (List.filter described items)).
    { rewrite derive_rows_spec, rows_at_spec.
      cbn [table_data challan_info default id].
      destruct (List.filter described items) eqn:F; [|reflexivity].
      exfalso.
      assert (Hf : In item (List.filter described items)).
      { apply List.filter_In. split; [exact Hin|].
        unfold described. now rewrite Hd. }
      rewrite F in Hf. destruct Hf. }
    split; [exact E|]. rewrite E. apply List.length_map.
Qed.

Lemma C7_described_items_witness :
  fst (derive_rows
         (Document None (Some ([example_item "1"] ++ ∅ :: [example_item "2"])))
         example_world)
  = fst (derive_rows
           (Document None (Some ([example_item "1"] ++ [example_item "2"])))
           example_world)
  /\ List.length
       (fst (derive_rows
               (Document None (Some [example_item "1"; ∅; example_item "2"]))
               example_world))
     = List.length
         (List.filter described [example_item "1"; ∅; example_item "2"]).
Proof.
  split.
  - apply (proj1 (C7_described_items None
                    [example_item "1"; ∅; example_item "2"] example_world)
             [example_item "1"] ∅ [example_item "2"]); reflexivity.
  - apply (proj2 (C7_described_items None
                    [example_item "1"; ∅; example_item "2"] example_world)).
    exists (example_item "1"). split; [now left | reflexivity].
Defined.

End RowFacts.

(* ===================================================================== *)
(** ** The difference field *)
(* ===================================================================== *)

Module DifferenceFacts.
Import PyStr PyStrFacts PyNum Sheets RowFacts Difference.
Local Open Scope list_scope.

Lemma chars_append (a b : string) : chars (a ++ b) = chars a ++ chars b.
Proof.
  unfold chars. induction a as [|c a IH]; [reflexivity|].
  change (list_ascii_of_string (String c a +:+ b))
    with (c :: list_ascii_of_string (a +:+ b)).
  rewrite IH. reflexivity.
Qed.

Lemma has_char_left (c : ascii) (a b : string) :
  has_char c a -> has_char c (a ++ b)%string.
Proof. unfold has_char. rewrite chars_append, in_app_iff. now left. Qed.

Lemma has_char_right (c : ascii) (a b : string) :
  has_char c b -> has_char c (a ++ b)%string.
Proof. unfold has_char. rewrite chars_append, in_app_iff. now right. Qed.

Lemma has_char_head (c : ascii) (s : string) : has_char c (String c s).
Proof. now left. Qed.

(** Every layout of the digits has a point or an exponent. *)
Lemma layout_float_text (ds : string) (decpt : Z) :
  has_char "." (layout ds decpt) \/ has_char "e" (layout ds decpt).
Proof.
  unfold layout.
  destruct ((decpt <=? -4) || (16 <? decpt)).
  - right. apply has_char_right, has_char_head.
  - destruct (decpt <=? 0).
    + left. apply (has_char_right _ "0" ("." ++ _)), has_char_head.
    + destruct (_ <=? decpt).
      * left. do 2 apply has_char_right. apply has_char_head.
      * left. apply has_char_right, has_char_head.
Qed.

Lemma str_float_text (f : spec_float) : float_text (str_float f).
Proof.
  unfold float_text.
  destruct f as [s | s | | s m e]; cbn [str_float].
  - left. destruct s; cbn; auto.
  - right. right. destruct s; auto.
  - auto.
  - destruct (shortest m e) as [v q].
    destruct (layout_float_text
                (rstrip_zeros (digits_of v))
                (Z.of_nat (String.length (digits_of v)) + q)) as [H | H].
    + left. now apply has_char_right.
    + right. left. now apply has_char_right.
Qed.

Lemma difference_field (info : gmap string string) (d t : string)
    (item : gmap string string) :
  nth 7 (row_of info d t item) ""
  = str (difference_of item (normalize_received item)).
Proof. reflexivity. Qed.

(** C5, as stated, fails: the specification reads the weights as
    decimal numbers, and the field is not always a rendering of their
    difference.  For [weight_sent] ["5.6"] and [weight_received]
    ["5.5"], the field is ["0.09999999999999964"], which is not a text
    of [5.6 - 5.5 = 0.1]. *)
Lemma C5_counterexample :
  ~ (forall (item : gmap string string) (x y : decimal),
       decimal_value (get item "weight_sent" "") = Some x ->
       decimal_value (normalize_received item) = Some y ->
       exists v,
         decimal_value (nth 7 (row_of ∅ "" "" item) "") = Some v /\
         dec_eqb v (dec_sub x y) = true).
Proof.
  intros H.
  destruct (H (weighed "5.6" "5.5") (Dec 56 1) (Dec 55 1) eq_refl eq_refl)
    as (v & Hv & E).
  assert (F : nth 7 (row_of ∅ "" "" (weighed "5.6" "5.5")) ""
              = "0.09999999999999964") by (vm_compute; reflexivity).
  rewrite F in Hv. vm_compute in Hv. injection Hv as <-.
  vm_compute in E. discriminate E.
Qed.

(** C5, amended: in the row of an item, the difference (eighth field)
    is the text [str] gives for the difference the code computes: the
    binary64 difference of the two floats, a blank [weight_sent] and the
    literal ["0"] counting as the integer [0]; that text has a point or
    an exponent, or reads [inf], [-inf] or [nan].  It is ["0"] when
    both operands are the integer [0], and ["0"] when a conversion
    fails.  So [10] and [4] give ["6.0"], and [5.6] and [5.5] give
    ["0.09999999999999964"]. *)
Theorem C5_difference (info : gmap string string) (d t : string)
    (item : gmap string string) :
  (forall a b,
     whitespace_only (get item "weight_sent" "") = false ->
     normalize_received item <> "0" ->
     float_of_string (get item "weight_sent" "") = Some a ->
     float_of_string (normalize_received item) = Some b ->
     nth 7 (row_of info d t item) "" = str_float (SFsub prec emax a b) /\
     float_text (nth 7 (row_of info d t item) "")) /\
  (forall b,
     whitespace_only (get item "weight_sent" "") = true ->
     normalize_received item <> "0" ->
     float_of_string (normalize_received item) = Some b ->
     nth 7 (row_of info d t item) ""
     = str_float (SFsub prec emax (S754_zero false) b) /\
     float_text (nth 7 (row_of info d t item) "")) /\
  (forall a,
     whitespace_only (get item "weight_sent" "") = false ->
     normalize_received item = "0" ->
     float_of_string (get item "weight_sent" "") = Some a ->
     nth 7 (row_of info d t item) ""
     = str_float (SFsub prec emax a (S754_zero false)) /\
     float_text (nth 7 (row_of info d t item) "")) /\
  (whitespace_only (get item "weight_sent" "") = true ->
   normalize_received item = "0" ->
     nth 7 (row_of info d t item) "" = "0") /\
  (whitespace_only (get item "weight_sent" "") = false ->
   float_of_string (get item "weight_sent" "") = None ->
     nth 7 (row_of info d t item) "" = "0") /\
  (float_of_string (normalize_received item) = None ->
     nth 7 (row_of info d t item) "" = "0") /\
  map (fun w => nth 7 (row_of info d t (weighed (fst w) (snd w))) "")
    [("10", "4"); ("10", ""); ("", "4"); ("4", "4"); ("5.6", "5.5");
     ("1e16", "0"); ("0.00001", ""); ("inf", "inf")]
  = ["6.0"; "10.0"; "-4.0"; "0.0"; "0.09999999999999964";
     "1e+16"; "1e-05"; "nan"].
Proof.
  rewrite !difference_field. unfold difference_of.
  rewrite sent_num_spec.
  split; [|split; [|split; [|split; [|split; [|split]]]]].
  - intros a b -> Hr -> Hb. rewrite (received_num_other _ Hr), Hb.
    split; [reflexivity | apply str_float_text].
  - intros b -> Hr Hb. rewrite (received_num_other _ Hr), Hb.
    split; [reflexivity | apply str_float_text].
  - intros a -> -> ->. split; [reflexivity | apply str_float_text].
  - intros -> ->. reflexivity.
  - intros -> ->. reflexivity.
  - intros Hb.
    assert (Hr : normalize_received item <> "0")
      by (intros E; rewrite E, float_of_zero in Hb; discriminate).
    rewrite (received_num_other _ Hr), Hb.
    destruct (if whitespace_only _ then _ else _); reflexivity.
  - vm_compute. reflexivity.
Qed.

Lemma C5_difference_witness :
  (nth 7 (row_of example_info "" "" (example_item "4")) "" = "6.0" /\
   float_text (nth 7 (row_of example_info "" "" (example_item "4")) "")) /\
  nth 7 (row_of example_info "" "" (example_item "four")) "" = "0".
Proof.
  split.
  - assert (T : str_float (SFsub prec emax
                   (S754_finite false 5629499534213120 (-49))
                   (S754_finite false 4503599627370496 (-50))) = "6.0")
      by (vm_compute; reflexivity).
    rewrite <- T.
    apply (proj1 (C5_difference example_info "" "" (example_item "4")));
      vm_compute; congruence.
  - apply (proj1 (proj2 (proj2 (proj2 (proj2 (proj2
             (C5_difference example_info "" "" (example_item "four")))))))).
    vm_compute. reflexivity.
Defined.

End DifferenceFacts.

(* ===================================================================== *)
(** ** The derivation on Python objects: what two runs share *)
(* ===================================================================== *)

Module StoreFacts.
Import PyStr PyStrFacts PyNum Sheets RowFacts Store.
Local Open Scope list_scope.
Local Open Scope nat_scope.

Lemma kept_refl (h : list object) : kept h h.
Proof. intros l o H. exact H. Qed.

Lemma kept_trans (h1 h2 h3 : list object) : kept h1 h2 -> kept h2 h3 -> kept h1 h3.
Proof. intros H1 H2 l o H. apply H2, H1, H. Qed.

Lemma kept_but_refl (r : nat) (h : list object) : kept_but r h h.
Proof. intros l o _ H. exact H. Qed.

Lemma kept_but_trans (r : nat) (h1 h2 h3 : list object) :
  kept_but r h1 h2 -> kept_but r h2 h3 -> kept_but r h1 h3.
Proof. intros H1 H2 l o N H. apply H2, H1; assumption. Qed.

Lemma kept_kept_but (r : nat) (h h' : list object) : kept h h' -> kept_but r h h'.
Proof. intros H l o _. apply H. Qed.

(** Allocation keeps every object. *)
Lemma kept_app (h : list object) (new_objects : list object) :
  kept h (h ++ new_objects).
Proof.
  intros l o H. rewrite lookup_app_l; [exact H|].
  apply lookup_lt_Some in H. exact H.
Qed.

(** A change at [r] keeps every other object. *)
Lemma kept_but_insert (r : nat) (h : list object) (o : object) :
  kept_but r h (<[r := o]> h).
Proof.
  intros l o' N H. rewrite list_lookup_insert_ne; [exact H | congruence].
Qed.

Lemma holds_strings_kept (r : nat) (h h' : list object) (v : value)
    (d : gmap string string) :
  kept_but r h h' -> v <> VRef r ->
  holds_strings h v d -> holds_strings h' v d.
Proof.
  intros K N (l & -> & H). exists l. split; [reflexivity|].
  apply K; [congruence | exact H].
Qed.

Lemma holds_strings_below (h : list object) (v : value) (d : gmap string string) :
  holds_strings h v d -> v <> VRef (List.length h).
Proof.
  intros (l & -> & H) E. injection E as ->.
  apply lookup_lt_Some in H. lia.
Qed.

(** [d.get(k, dflt)] on an object with string members. *)
Lemma dict_get_strings (s : state) (v : value) (d : gmap string string)
    (k dflt : string) :
  holds_strings (objects s) v d ->
  dict_get v k (VStr dflt) s = Done (VStr (get d k dflt)) s.
Proof.
  intros (l & -> & H). unfold dict_get. rewrite H, lookup_fmap.
  unfold get. destruct (d !! k); reflexivity.
Qed.

Lemma difference_in_spec (s : state) (v : value) (item : gmap string string)
    (weight_received : string) :
  holds_strings (objects s) v item ->
  difference_in v weight_received s
  = Done (difference_of item weight_received) s.
Proof.
  intros H. unfold difference_in, then_.
  rewrite (dict_get_strings s v item _ _ H). cbn [str_strip].
  unfold difference_of, sent_num.
  destruct (truthy (strip (get item "weight_sent" ""))).
  - rewrite (dict_get_strings s v item _ _ H). reflexivity.
  - reflexivity.
Qed.

(** The state after a row has been made and appended to the list at
    [r]. *)
Lemma lookup_after_append (h : list object) (r : nat)
    (elements : list value) (o : object) (v : value) :
  h !! r = Some (OList elements) ->
  (<[r := OList (elements ++ [v])]> (h ++ [o])) !! r
    = Some (OList (elements ++ [v])) /\
  (<[r := OList (elements ++ [v])]> (h ++ [o])) !! List.length h = Some o /\
  List.length h <> r /\
  kept_but r h (<[r := OList (elements ++ [v])]> (h ++ [o])).
Proof.
  intros H. pose proof (lookup_lt_Some _ _ _ H) as Hlt.
  repeat split.
  - apply list_lookup_insert_eq. rewrite length_app. lia.
  - rewrite list_lookup_insert_ne by lia.
    now rewrite lookup_app_r, Nat.sub_diag by lia.
  - lia.
  - apply (kept_but_trans r h (h ++ [o])).
    + apply kept_kept_but, kept_app.
    + apply kept_but_insert.
Qed.

Lemma holds_rows_kept (r : nat) (h h' : list object) (acc : list row)
    (elements : list value) :
  kept_but r h h' ->
  Forall2 (fun v row => exists l, v = VRef l /\ l <> r /\
                          h !! l = Some (OList (VStr <$> row)))
    elements acc ->
  Forall2 (fun v row => exists l, v = VRef l /\ l <> r /\
                          h' !! l = Some (OList (VStr <$> row)))
    elements acc.
Proof.
  intros K F. eapply Forall2_impl; [exact F|].
  intros v row (l & -> & N & H). exists l. split; [reflexivity|].
  split; [exact N|]. apply K; assumption.
Qed.

Lemma holds_rows_append (h : list object) (r : nat) (acc : list row)
    (row : Sheets.row) (elements : list value) :
  h !! r = Some (OList elements) ->
  holds_rows h r acc ->
  holds_rows
    (<[r := OList (elements ++ [VRef (List.length h)])]>
       (h ++ [OList (VStr <$> row)]))
    r (acc ++ [row]).
Proof.
  intros H (elements' & H' & F).
  rewrite H in H'. injection H' as <-.
  destruct (lookup_after_append h r elements (OList (VStr <$> row))
              (VRef (List.length h)) H) as (E1 & E2 & N & K).
  exists (elements ++ [VRef (List.length h)]). split; [exact E1|].
  apply Forall2_app.
  - apply (holds_rows_kept r h _ _ _ K F).
  - constructor; [|constructor]. exists (List.length h). auto.
Qed.

(** One turn of the loop: nothing for an item with a blank
    description; otherwise a new list with the strings of the row, and
    its address appended to the list at [r]. *)
Lemma loop_body_spec (s : state) (r : nat) (info_v item_v : value)
    (info item : gmap string string) (d t : string)
    (elements : list value) :
  holds_strings (objects s) info_v info ->
  holds_strings (objects s) item_v item ->
  objects s !! r = Some (OList elements) ->
  loop_body info_v (VRef r) d t item_v s
  = Done tt
      (if described item
       then State
              (<[r := OList (elements ++ [VRef (List.length (objects s))])]>
                 (objects s ++ [OList (VStr <$> row_of info d t item)]))
              (clock s)
       else s).
Proof.
  intros Hinfo Hitem Hr. unfold loop_body, then_ at 1 2.
  rewrite (dict_get_strings s item_v item _ _ Hitem). cbn [str_strip].
  rewrite emits_described.
  destruct (described item); cbn [negb]; [|reflexivity].
  unfold then_.
  rewrite (dict_get_strings s item_v item _ _ Hitem). cbn [str_strip].
  rewrite (difference_in_spec s item_v item _ Hitem).
  rewrite !(dict_get_strings s info_v info _ _ Hinfo).
  rewrite !(dict_get_strings s item_v item _ _ Hitem).
  cbn [new list_append objects clock].
  rewrite lookup_app_l by (apply lookup_lt_Some in Hr; exact Hr).
  rewrite Hr. reflexivity.
Qed.

(** The loop, from the index [i] on: it ends, it leaves every object
    but the list at [r] as it was, it does not read the clock, and it
    appends the rows of the items with a description. *)
Lemma for_items_spec (r td : nat) (info_v : value)
    (info : gmap string string) (d t : string)
    (elements : list value) (items : list (gmap string string)) :
  td <> r -> info_v <> VRef r ->
  forall (fuel i : nat) (s : state) (acc : list row),
    List.length elements - i < fuel ->
    objects s !! td = Some (OList elements) ->
    holds_strings (objects s) info_v info ->
    Forall2 (fun v item => v <> VRef r /\ holds_strings (objects s) v item)
      elements items ->
    holds_rows (objects s) r acc ->
    exists s',
      for_items fuel info_v (VRef td) (VRef r) d t i s = Done tt s' /\
      kept_but r (objects s) (objects s') /\
      clock s' = clock s /\
      holds_rows (objects s') r
        (acc ++ map (row_of info d t) (List.filter described (drop i items))).
Proof.
  intros Ntd Ninfo fuel.
  induction fuel as [|fuel IH]; intros i s acc Hfuel Htd Hinfo Hitems Hrows;
    [lia|].
  cbn [for_items]. rewrite Htd.
  destruct (elements !! i) as [item_v|] eqn:Ei.
  - destruct (Forall2_lookup_l _ _ _ _ _ Hitems Ei)
      as (item & Eitem & Nitem & Hitem).
    destruct Hrows as (row_refs & Hr & Hacc).
    unfold then_.
    rewrite (loop_body_spec s r info_v item_v info item d t row_refs
               Hinfo Hitem Hr).
    rewrite (drop_S _ _ _ Eitem). cbn [List.filter].
    apply lookup_lt_Some in Ei.
    destruct (described item).
    + set (h' := <[r := _]> (_ ++ _)).
      destruct (lookup_after_append (objects s) r row_refs
                  (OList (VStr <$> row_of info d t item))
                  (VRef (List.length (objects s))) Hr)
        as (_ & _ & _ & K). fold h' in K.
      destruct (IH (S i) (State h' (clock s))
                  (acc ++ [row_of info d t item])) as (s' & E & K' & C & R).
      * lia.
      * apply K; assumption.
      * apply (holds_strings_kept r _ _ _ _ K Ninfo Hinfo).
      * eapply Forall2_impl; [exact Hitems|]. intros v it (N & H).
        split; [exact N|]. apply (holds_strings_kept r _ _ _ _ K N H).
      * apply holds_rows_append; [exact Hr|]. exists row_refs. auto.
      * exists s'. split; [exact E|]. split; [|split].
        -- apply (kept_but_trans r _ h'); assumption.
        -- exact C.
        -- cbn [map]. rewrite <- app_assoc in R. exact R.
    + destruct (IH (S i) s acc) as (s' & E & K' & C & R);
        try assumption; [lia | exists row_refs; auto |].
      exists s'. auto.
  - exists s. split; [reflexivity|]. split; [apply kept_but_refl|].
    split; [reflexivity|].
    apply lookup_ge_None in Ei.
    rewrite drop_ge by (rewrite <- (Forall2_length _ _ _ Hitems); exact Ei).
    cbn. now rewrite app_nil_r.
Qed.

Lemma mapM_as_str (row : Sheets.row) : mapM as_str (VStr <$> row) = Some row.
Proof.
  apply mapM_Some_2. induction row; constructor; auto.
Qed.

(** The rows held at [r] are read back as they are. *)
Lemma load_rows_holds (h : list object) (r : nat) (acc : list row) :
  holds_rows h r acc -> load_rows h (VRef r) = Some acc.
Proof.
  intros (elements & H & F). unfold load_rows. cbn [elements_at].
  rewrite H. apply mapM_Some_2. eapply Forall2_impl; [exact F|].
  intros v row (l & -> & _ & Hl). unfold load_row. cbn [elements_at].
  rewrite Hl. apply mapM_as_str.
Qed.

Lemma kept_below (h h1 h2 : list object) :
  kept h h1 -> kept_but (List.length h) h1 h2 -> kept h h2.
Proof.
  intros K1 K2 l o H. apply K2; [|apply K1, H].
  apply lookup_lt_Some in H. lia.
Qed.

Lemma holds_strings_mono (h h' : list object) (v : value)
    (d : gmap string string) :
  kept h h' -> holds_strings h v d -> holds_strings h' v d.
Proof. intros K (l & -> & H). exists l. split; [reflexivity | apply K, H]. Qed.

Lemma holds_items_mono (h h' : list object) (v : value)
    (items : list (gmap string string)) :
  kept h h' -> holds_items h v items -> holds_items h' v items.
Proof.
  intros K (l & elements & -> & H & F). exists l, elements.
  split; [reflexivity|]. split; [apply K, H|].
  eapply Forall2_impl; [exact F|]. intros v d. apply holds_strings_mono, K.
Qed.

(** A run from a later heap, in which the objects are kept, finds the
    same document. *)
Lemma holds_document_mono (h h' : list object) (v : value) (doc : document) :
  kept h h' -> holds_document h v doc -> holds_document h' v doc.
Proof.
  intros K (l & members & -> & H & Hinfo & Hitems). exists l, members.
  split; [reflexivity|]. split; [apply K, H|]. split.
  - destruct Hinfo as [v d Hv|]; constructor.
    apply (holds_strings_mono h h' v d K Hv).
  - destruct Hitems as [v items Hv|]; constructor.
    apply (holds_items_mono h h' v items K Hv).
Qed.

Lemma holds_rows_mono (h h' : list object) (r : nat) (acc : list row) :
  kept h h' -> holds_rows h r acc -> holds_rows h' r acc.
Proof.
  intros K (elements & H & F). exists elements. split; [apply K, H|].
  apply (holds_rows_kept r h h' acc elements); [|exact F].
  apply kept_kept_but, K.
Qed.

(** One run, lines 212-284: it ends with the new list [rows], whose
    rows are those of the derivation on the document, for the date of
    the first reading of the clock and the timestamp of the second; the
    clock has been read twice, and every object that was there is
    unchanged. *)
Lemma prepare_rows_spec (s : state) (data : value) (doc : document) :
  holds_document (objects s) data doc ->
  exists s',
    prepare_rows data s = Done (VRef (List.length (objects s))) s' /\
    kept (objects s) (objects s') /\
    clock s' = World (reading (clock s)) (S (S (calls (clock s)))) /\
    holds_rows (objects s') (List.length (objects s))
      (rows_at doc
         (strftime_date (reading (clock s) (calls (clock s))))
         (strftime_timestamp (reading (clock s) (S (calls (clock s)))))).
Proof.
  intros (l & members & -> & Hl & Hinfo & Hitems).
  destruct s as [h0 w]. cbn [objects clock] in *.
  set (n := List.length h0).
  set (h3 := ((h0 ++ [OList []]) ++ [ODict ∅]) ++ [OList []]).
  set (d := strftime_date (reading w (calls w))).
  set (t := strftime_timestamp (reading w (S (calls w)))).
  set (w' := World (reading w) (S (S (calls w)))).
  assert (K03 : kept h0 h3).
  { apply (kept_trans _ ((h0 ++ [OList []]) ++ [ODict ∅])); [|apply kept_app].
    apply (kept_trans _ (h0 ++ [OList []])); apply kept_app. }
  assert (L1 : List.length (h0 ++ [OList []]) = S n)
    by (rewrite length_app; cbn; lia).
  assert (L2 : List.length ((h0 ++ [OList []]) ++ [ODict ∅]) = S (S n))
    by (rewrite length_app, L1; cbn; lia).
  assert (Hrows : h3 !! n = Some (OList [])).
  { unfold h3. rewrite !lookup_app_l by (rewrite ?length_app; cbn; lia).
    now rewrite lookup_app_r, Nat.sub_diag by lia. }
  assert (Hno_info : h3 !! S n = Some (ODict ∅)).
  { unfold h3. rewrite lookup_app_l by (rewrite L2; lia).
    now rewrite lookup_app_r, L1, Nat.sub_diag by lia. }
  assert (Hno_items : h3 !! S (S n) = Some (OList [])).
  { unfold h3. now rewrite lookup_app_r, L2, Nat.sub_diag by lia. }
  set (info_v := default (VRef (S n)) (members !! "challan_info")).
  set (td_v := default (VRef (S (S n))) (members !! "table_data")).
  assert (A : holds_strings h3 info_v (default ∅ (challan_info doc)) /\
              info_v <> VRef n).
  { unfold info_v. destruct Hinfo as [v info H|]; cbn [default].
    - split; [apply (holds_strings_mono h0 h3 _ _ K03 H)|].
      apply (holds_strings_below h0 _ _ H).
    - split; [|intros E; injection E; lia].
      exists (S n). split; [reflexivity|]. now rewrite fmap_empty. }
  assert (B : exists td elements,
              td_v = VRef td /\ td <> n /\
              h3 !! td = Some (OList elements) /\
              Forall2 (fun v item => v <> VRef n /\ holds_strings h3 v item)
                elements (default [] (table_data doc))).
  { unfold td_v. destruct Hitems as [v items (td & elements & -> & H & F)|];
      cbn [default].
    - exists td, elements. split; [reflexivity|].
      split; [apply lookup_lt_Some in H; fold n in H; lia|].
      split; [apply K03, H|].
      eapply Forall2_impl; [exact F|]. intros v it Hv.
      split; [apply (holds_strings_below h0 _ _ Hv)|].
      apply (holds_strings_mono h0 h3 _ _ K03 Hv).
    - exists (S (S n)), []. split; [reflexivity|].
      split; [lia|]. split; [exact Hno_items | constructor]. }
  destruct A as (A & Ninfo).
  destruct B as (td & elements & Etd & Ntd & Htd & F).
  destruct (for_items_spec n td info_v (default ∅ (challan_info doc)) d t
              elements (default [] (table_data doc)) Ntd Ninfo
              (S (List.length elements)) 0 (State h3 w') [])
    as (s4 & E4 & K4 & C4 & R4);
    [lia | exact Htd | exact A | exact F | exists []; split; [exact Hrows | constructor] |].
  cbn [app] in R4. rewrite drop_0 in R4.
  assert (Run : forall k : unit -> prog value,
            prepare_rows (VRef l) (State h0 w)
            = (let! empty := list_is_empty (VRef n) in
               let! _ :=
                 (if empty then
                    let! challan_number :=
                      dict_get info_v "challan_number" (VStr "") in
                    let! vendor_name :=
                      dict_get info_v "vendor_name" (VStr "") in
                    let! row :=
                      new (OList [ challan_number; vendor_name; VStr "";
                                   VStr ""; VStr "0"; VStr "Not Received";
                                   VStr ""; VStr "0"; VStr ""; VStr "";
                                   VStr ""; VStr d; VStr t ]) in
                    list_append (VRef n) row
                  else unit_ tt) in
               unit_ (VRef n)) s4).
  { intros _. unfold prepare_rows. unfold then_ at 1 2 3 4 5 6 7 8 9.
    cbn [new objects clock dict_get].
    assert (Hlt : l < n) by (apply lookup_lt_Some in Hl; exact Hl).
    rewrite !(lookup_app_l _ _ l) by (rewrite ?length_app; cbn; lia).
    rewrite Hl. cbn [objects clock].
    rewrite !(lookup_app_l _ _ l) by (rewrite ?length_app; cbn; lia).
    rewrite Hl, L1, L2. fold info_v td_v h3.
    cbn [clock_now now objects clock reading calls].
    fold d t w'. rewrite Etd. cbn [steps objects]. rewrite Htd.
    fold n. rewrite E4. reflexivity. }
  rewrite (Run (fun _ => unit_ (VRef n))). clear Run.
  destruct R4 as (row_refs & Hr4 & F4).
  assert (A4 : holds_strings (objects s4) info_v
                 (default ∅ (challan_info doc)))
    by (apply (holds_strings_kept n _ _ _ _ K4 Ninfo A)).
  unfold then_ at 1. cbn [list_is_empty]. rewrite Hr4.
  rewrite rows_at_spec. fold d t.
  destruct (List.filter described (default [] (table_data doc)))
    as [|item kept_items] eqn:Ef.
  - inversion F4; subst. unfold then_.
    rewrite !(dict_get_strings s4 info_v _ _ _ A4).
    cbn [new list_append objects clock].
    rewrite lookup_app_l by (apply lookup_lt_Some in Hr4; exact Hr4).
    rewrite Hr4. cbn [unit_].
    eexists. split; [reflexivity|]. cbn [objects clock].
    destruct (lookup_after_append (objects s4) n []
                (OList (VStr <$> fallback_row
                          (default ∅ (challan_info doc)) d t))
                (VRef (List.length (objects s4))) Hr4)
      as (_ & _ & _ & K5).
    split; [|split].
    + apply (kept_below h0 h3); [exact K03|].
      apply (kept_but_trans n _ (objects s4)); [exact K4 | exact K5].
    + exact C4.
    + assert (R4 : holds_rows (objects s4) n [])
        by (exists []; split; [exact Hr4 | constructor]).
      exact (holds_rows_append (objects s4) n []
               (fallback_row (default ∅ (challan_info doc)) d t) []
               Hr4 R4).
  - inversion F4; subst. unfold then_. cbn [unit_].
    exists s4. split; [reflexivity|]. split; [|split].
    + apply (kept_below h0 h3); assumption.
    + exact C4.
    + eexists. split; [exact Hr4 | exact F4].
Qed.

(** C9: two runs of the row derivation on the same document object,
    one after the other, give identical row sequences when the clock
    gives the same date text and the same timestamp text to both.  The
    rows of a run are those of the document and of the two clock texts,
    whatever else the heap holds; a run changes no object that was
    there before it: not the document, which the second run finds as
    the first did, and not the rows of the first run, which the second
    leaves as they were, making a list of its own. *)
Theorem C9_deterministic (s : state) (data : value) (doc : document) :
  holds_document (objects s) data doc ->
  strftime_date (reading (clock s) (calls (clock s)))
  = strftime_date (reading (clock s) (2 + calls (clock s))) ->
  strftime_timestamp (reading (clock s) (1 + calls (clock s)))
  = strftime_timestamp (reading (clock s) (3 + calls (clock s))) ->
  exists (rows1 rows2 : value) (s1 s2 : state) (rows : list row),
    prepare_rows data s = Done rows1 s1 /\
    prepare_rows data s1 = Done rows2 s2 /\
    load_rows (objects s1) rows1 = Some rows /\
    load_rows (objects s2) rows2 = Some rows /\
    load_rows (objects s2) rows1 = Some rows /\
    rows = fst (derive_rows doc (clock s)) /\
    rows1 <> rows2 /\
    kept (objects s) (objects s1) /\
    kept (objects s1) (objects s2) /\
    holds_document (objects s2) data doc /\
    calls (clock s2) = 4 + calls (clock s).
Proof.
  intros H Hd Ht.
  destruct (prepare_rows_spec s data doc H) as (s1 & E1 & K1 & C1 & R1).
  assert (H1 : holds_document (objects s1) data doc)
    by (apply (holds_document_mono _ _ _ _ K1 H)).
  destruct (prepare_rows_spec s1 data doc H1) as (s2 & E2 & K2 & C2 & R2).
  rewrite C1 in R2, C2. cbn [reading calls] in R2, C2.
  cbn [Nat.add] in Hd, Ht. rewrite <- Hd, <- Ht in R2.
  exists (VRef (List.length (objects s))), (VRef (List.length (objects s1))),
    s1, s2, (fst (derive_rows doc (clock s))).
  rewrite derive_rows_spec.
  split; [exact E1|]. split; [exact E2|].
  split; [apply load_rows_holds, R1|].
  split; [apply load_rows_holds, R2|].
  split; [apply load_rows_holds, (holds_rows_mono _ _ _ _ K2 R1)|].
  split; [reflexivity|].
  split.
  - intros E. injection E as E.
    destruct R1 as (elements & Hr & _). apply lookup_lt_Some in Hr. lia.
  - split; [exact K1|]. split; [exact K2|].
    split; [apply (holds_document_mono _ _ _ _ K2 H1)|].
    rewrite C2. reflexivity.
Qed.

Lemma C9_deterministic_witness :
  exists (rows1 rows2 : value) (s1 s2 : state) (rows : list row),
    prepare_rows (VRef 1) (State example_heap example_clock)
      = Done rows1 s1 /\
    prepare_rows (VRef 1) s1 = Done rows2 s2 /\
    load_rows (objects s1) rows1 = Some rows /\
    load_rows (objects s2) rows2 = Some rows /\
    load_rows (objects s2) rows1 = Some rows /\
    rows = fst (derive_rows example_held
                  (clock (State example_heap example_clock))) /\
    rows1 <> rows2 /\
    kept (objects (State example_heap example_clock)) (objects s1) /\
    kept (objects s1) (objects s2) /\
    holds_document (objects s2) (VRef 1) example_held /\
    calls (clock s2)
    = 4 + calls (clock (State example_heap example_clock)).
Proof.
  apply (C9_deterministic (State example_heap example_clock) (VRef 1)
           example_held).
  - eexists 1, _. split; [reflexivity|]. split; [reflexivity|]. split.
    + apply (Some_Forall2 _ (VRef 2)). exists 2. split; reflexivity.
    + apply (Some_Forall2 _ (VRef 3)).
      exists 3, [VRef 4; VRef 5; VRef 4].
      split; [reflexivity|]. split; [reflexivity|].
      repeat constructor;
        [exists 4 | exists 5 | exists 4]; split; reflexivity.
  - reflexivity.
  - reflexivity.
Defined.

End StoreFacts.

(* ===================================================================== *)
(** ** More on stripping, searching and slicing *)
(* ===================================================================== *)

Module PyStrMore.
Import PyStr PyStrFacts.
Local Open Scope list_scope.

Lemma lstrip_head (l : list ascii) (c : ascii) (t : list ascii) :
  lstrip_chars l = c :: t -> is_space c = false.
Proof.
  induction l as [|x l IH]; cbn; [discriminate|].
  destruct (is_space x) eqn:E; [exact IH|].
  intros H. injection H as -> _. exact E.
Qed.

Lemma lstrip_fixed (c : ascii) (t : list ascii) :
  is_space c = false -> lstrip_chars (c :: t) = c :: t.
Proof. intros H. cbn. now rewrite H. Qed.

Lemma lstrip_idem (l : list ascii) :
  lstrip_chars (lstrip_chars l) = lstrip_chars l.
Proof.
  destruct (lstrip_chars l) as [|c t] eqn:E; [reflexivity|].
  apply lstrip_fixed. exact (lstrip_head _ _ _ E).
Qed.

(** A stripped text is left as it is by [strip]. *)
Lemma strip_chars_idem (l : list ascii) :
  strip_chars (strip_chars l) = strip_chars l.
Proof.
  unfold strip_chars, rstrip_chars.
  set (a := lstrip_chars l). set (b := lstrip_chars (rev a)).
  assert (Hl : lstrip_chars (rev b) = rev b).
  { destruct (lstrip_split (rev a)) as (ws & _ & E). fold b in E.
    apply (f_equal (@rev ascii)) in E.
    rewrite rev_involutive, rev_app_distr in E.
    destruct (rev b) as [|c r] eqn:Er; [reflexivity|].
    apply lstrip_fixed.
    assert (Ha : lstrip_chars l = c :: (r ++ rev ws)) by exact E.
    exact (lstrip_head _ _ _ Ha). }
  rewrite Hl, rev_involutive. unfold b. now rewrite lstrip_idem.
Qed.

Lemma strip_idem (s : string) : strip (strip s) = strip s.
Proof. unfold strip. now rewrite chars_of_chars, strip_chars_idem. Qed.

(** Stripping removes whitespace only. *)
Lemma in_strip_keep (c : ascii) (l : list ascii) :
  is_space c = false -> In c l -> In c (strip_chars l).
Proof.
  intros Hc Hin. destruct (strip_split l) as (ws1 & ws2 & H1 & H2 & E).
  rewrite E in Hin. apply in_app_or in Hin as [Hin | Hin].
  - rewrite forallb_forall in H1. rewrite (H1 _ Hin) in Hc. discriminate.
  - apply in_app_or in Hin as [Hin | Hin]; [exact Hin|].
    rewrite forallb_forall in H2. rewrite (H2 _ Hin) in Hc. discriminate.
Qed.

(** Left stripping in front of a character that is not whitespace. *)
Lemma lstrip_keep (p : list ascii) (c : ascii) (t : list ascii) :
  is_space c = false ->
  exists p', lstrip_chars (p ++ c :: t) = p' ++ c :: t /\
             forall x, In x p' -> In x p.
Proof.
  intros Hc. induction p as [|x p IH]; cbn.
  - rewrite Hc. now exists [].
  - destruct (is_space x).
    + destruct IH as (p' & E & Hin). exists p'. split; [exact E|].
      intros y Hy. right. now apply Hin.
    + exists (x :: p). split; [reflexivity | auto].
Qed.

(** Stripping around a block that starts and ends with characters that
    are not whitespace. *)
Lemma strip_keep (p : list ascii) (c : ascii) (mid : list ascii)
    (d : ascii) (q : list ascii) :
  is_space c = false -> is_space d = false ->
  exists p' q',
    strip_chars (p ++ c :: mid ++ d :: q) = p' ++ c :: mid ++ d :: q' /\
    (forall x, In x p' -> In x p) /\ (forall x, In x q' -> In x q).
Proof.
  intros Hc Hd. unfold strip_chars, rstrip_chars.
  destruct (lstrip_keep p c (mid ++ d :: q) Hc) as (p' & E & Hp).
  rewrite E.
  assert (R : rev (p' ++ c :: mid ++ d :: q)
              = rev q ++ d :: rev (p' ++ c :: mid)).
  { change (p' ++ c :: mid ++ d :: q) with (p' ++ (c :: mid) ++ d :: q).
    rewrite app_assoc, rev_app_distr. cbn [rev].
    rewrite <- app_assoc. reflexivity. }
  rewrite R.
  destruct (lstrip_keep (rev q) d (rev (p' ++ c :: mid)) Hd)
    as (q' & E' & Hq).
  rewrite E'. exists p', (rev q'). split; [|split].
  - rewrite rev_app_distr. cbn. rewrite rev_involutive.
    rewrite <- !app_assoc. reflexivity.
  - exact Hp.
  - intros x Hx. apply in_rev, Hq in Hx. now apply in_rev.
Qed.

Lemma find_from_first (c : ascii) (p t : list ascii) (i : Z) :
  ~ In c p -> find_from c (p ++ c :: t) i = i + Z.of_nat (List.length p).
Proof.
  revert i. induction p as [|x p IH]; intros i H; cbn [app find_from].
  - rewrite ascii_eqb_refl. cbn. lia.
  - destruct (ascii_eqb x c) eqn:E.
    + apply ascii_eqb_eq in E. subst. exfalso. apply H. now left.
    + rewrite IH by (intros Hin; apply H; now right).
      cbn [List.length]. lia.
Qed.

Lemma rfind_from_last (c : ascii) (l q : list ascii) (i last : Z) :
  ~ In c q ->
  rfind_from c (l ++ c :: q) i last = i + Z.of_nat (List.length l).
Proof.
  revert i last. induction l as [|x l IH]; intros i last H;
    cbn [app rfind_from].
  - rewrite ascii_eqb_refl, (rfind_from_absent _ _ _ _ H). cbn. lia.
  - rewrite IH by exact H. cbn [List.length]. lia.
Qed.

Lemma slice_middle (p body q : list ascii) :
  slice (of_chars (p ++ body ++ q)) (Z.of_nat (List.length p))
    (Z.of_nat (List.length p) + Z.of_nat (List.length body))
  = of_chars body.
Proof.
  unfold slice. cbv zeta. rewrite chars_of_chars.
  rewrite !length_app.
  set (a := List.length p). set (b := List.length body).
  set (c := List.length q).
  assert (H1 : clamp (Z.of_nat (a + (b + c))) (Z.of_nat a) = Z.of_nat a).
  { unfold clamp.
    destruct (Z.of_nat a <? 0) eqn:E; [apply Z.ltb_lt in E; lia|].
    rewrite E.
    destruct (_ <? Z.of_nat a) eqn:E2; [apply Z.ltb_lt in E2; lia|].
    reflexivity. }
  assert (H2 : clamp (Z.of_nat (a + (b + c))) (Z.of_nat a + Z.of_nat b)
               = Z.of_nat a + Z.of_nat b).
  { unfold clamp.
    destruct (Z.of_nat a + Z.of_nat b <? 0) eqn:E;
      [apply Z.ltb_lt in E; lia|].
    rewrite E.
    destruct (_ <? Z.of_nat a + Z.of_nat b) eqn:E2;
      [apply Z.ltb_lt in E2; lia|].
    reflexivity. }
  rewrite H1, H2.
  replace (Z.to_nat (Z.of_nat a + Z.of_nat b - Z.of_nat a)) with b by lia.
  rewrite Nat2Z.id. f_equal.
  unfold a, b.
  rewrite List.skipn_app, List.skipn_all, Nat.sub_diag.
  change (skipn 0 (body ++ q)) with (body ++ q). cbn [app].
  rewrite List.firstn_app, List.firstn_all, Nat.sub_diag.
  change (firstn 0 q) with (@nil ascii).
  apply app_nil_r.
Qed.

End PyStrMore.

(* ===================================================================== *)
(** ** More on the JSON isolation *)
(* ===================================================================== *)

Module GeminiMore.
Import PyStr PyStrFacts PyStrMore Gemini GeminiFacts.
Local Open Scope list_scope.

Lemma find_from_split (c : ascii) (l : list ascii) (i : Z) :
  find_from c l i <> -1 -> 0 <= i ->
  exists a r, l = a ++ c :: r /\ ~ In c a /\
              find_from c l i = i + Z.of_nat (List.length a).
Proof.
  revert i. induction l as [|x l IH]; intros i H Hi; cbn in *; [easy|].
  destruct (ascii_eqb x c) eqn:E.
  - apply ascii_eqb_eq in E. subst. exists [], l. cbn.
    split; [reflexivity|]. split; [tauto | lia].
  - destruct (IH (i + 1) H ltac:(lia)) as (a & r & -> & Ha & Hf).
    exists (x :: a), r. split; [reflexivity|]. split.
    + intros [-> | Hin]; [now rewrite ascii_eqb_refl in E | contradiction].
    + rewrite Hf. cbn [List.length]. lia.
Qed.

Lemma rfind_from_split (c : ascii) (l : list ascii) (i last : Z) :
  (rfind_from c l i last = last /\ ~ In c l) \/
  (exists u v, l = u ++ c :: v /\ ~ In c v /\
               rfind_from c l i last = i + Z.of_nat (List.length u)).
Proof.
  revert i last. induction l as [|x l IH]; intros i last; cbn.
  - left. tauto.
  - destruct (IH (i + 1) (if ascii_eqb x c then i else last))
      as [(E & Hn) | (u & v & -> & Hv & E)].
    + destruct (ascii_eqb x c) eqn:Ex.
      * apply ascii_eqb_eq in Ex. subst. right. exists [], l. cbn.
        split; [reflexivity|]. split; [exact Hn | lia].
      * left. split; [exact E|].
        intros [-> | Hin]; [now rewrite ascii_eqb_refl in Ex | contradiction].
    + right. exists (x :: u), v. split; [reflexivity|].
      split; [exact Hv|]. rewrite E. cbn [List.length]. lia.
Qed.

Lemma clamp_id (len i : Z) : 0 <= i <= len -> clamp len i = i.
Proof.
  intros H. unfold clamp.
  destruct (i <? 0) eqn:E; [apply Z.ltb_lt in E; lia|]. rewrite E.
  destruct (len <? i) eqn:E2; [apply Z.ltb_lt in E2; lia|]. reflexivity.
Qed.

Lemma slice_empty (s : string) (a b : Z) :
  0 <= b <= a -> a <= Z.of_nat (List.length (chars s)) -> slice s a b = "".
Proof.
  intros H Hl. unfold slice. cbv zeta.
  rewrite !clamp_id by lia.
  replace (Z.to_nat (b - a)) with O by lia. reflexivity.
Qed.

(** The isolation on a stripped text of the form
    [a {  mid  } v], with no [{] in [a] and no [}] in [v]. *)
Lemma isolate_block (text : string) (a mid v : list ascii) :
  text <> "" ->
  chars (strip text) = a ++ "{"%char :: mid ++ "}"%char :: v ->
  ~ In "{"%char a -> ~ In "}"%char v ->
  isolate_json text = JsonLoads (of_chars ("{"%char :: mid ++ ["}"%char])).
Proof.
  intros Hne Hc Ha Hv. unfold isolate_json.
  rewrite (truthy_nonempty _ Hne). cbn [negb].
  assert (Hf : find (strip text) "{"%char = Z.of_nat (List.length a)).
  { unfold find. rewrite Hc, (find_from_first _ _ _ _ Ha). lia. }
  assert (Hr : rfind (strip text) "}"%char
               = Z.of_nat (List.length a) + 1
                 + Z.of_nat (List.length mid)).
  { unfold rfind. rewrite Hc.
    replace (a ++ "{"%char :: mid ++ "}"%char :: v)
      with ((a ++ "{"%char :: mid) ++ "}"%char :: v)
      by (rewrite <- app_assoc; reflexivity).
    rewrite (rfind_from_last _ _ _ _ _ Hv), length_app.
    cbn [List.length]. lia. }
  rewrite Hf, Hr.
  destruct (Z.of_nat (List.length a) =? -1) eqn:E1;
    [apply Z.eqb_eq in E1; lia|].
  destruct (_ + 1 =? -1) eqn:E2; [apply Z.eqb_eq in E2; lia|].
  cbn [negb andb]. f_equal.
  rewrite <- (of_chars_chars (strip text)), Hc.
  replace (a ++ "{"%char :: mid ++ "}"%char :: v)
    with (a ++ ("{"%char :: mid ++ ["}"%char]) ++ v)
    by (cbn; rewrite <- app_assoc; reflexivity).
  replace (Z.of_nat (List.length a) + 1 + Z.of_nat (List.length mid) + 1)
    with (Z.of_nat (List.length a)
          + Z.of_nat (List.length ("{"%char :: mid ++ ["}"%char]))).
  2:{ cbn [List.length]. rewrite length_app. cbn [List.length]. lia. }
  apply slice_middle.
Qed.

(** X12: the no-JSON-found report is given exactly for the non-empty
    texts without [{], and it carries the stripped text. *)
Theorem no_json_found_iff (text content : string) :
  isolate_json text = NoJsonFound content <->
  text <> "" /\ ~ has_char "{"%char text /\ content = strip text.
Proof.
  split.
  - unfold isolate_json. destruct (truthy text) eqn:T; cbn [negb];
      [|discriminate].
    destruct (find (strip text) "{" =? -1) eqn:E1; cbn [negb andb].
    + intros H. injection H as <-. apply Z.eqb_eq in E1.
      split; [destruct text; [discriminate | discriminate]|].
      split; [|reflexivity].
      intros Hin. unfold has_char in Hin.
      apply (in_strip_keep "{"%char _ eq_refl) in Hin.
      pose proof (find_from_present "{"%char _ 0 Hin) as Hp.
      unfold find, strip in E1. rewrite chars_of_chars in E1.
      lia.
    + destruct (rfind (strip text) "}" + 1 =? -1) eqn:E2;
        cbn [negb]; [|discriminate].
      apply Z.eqb_eq in E2. now apply rfind_succ in E2.
  - intros (Hne & Habs & ->). unfold isolate_json.
    rewrite (truthy_nonempty _ Hne). cbn [negb].
    now rewrite (find_absent _ _ Habs).
Qed.

Lemma no_json_found_iff_witness :
  isolate_json "  no table in this picture  "
  = NoJsonFound "no table in this picture".
Proof.
  apply (no_json_found_iff "  no table in this picture  "
           "no table in this picture").
  split; [discriminate|]. split; [|reflexivity].
  unfold has_char. cbn. intros H.
  repeat (destruct H as [H|H]; [discriminate H|]). exact H.
Defined.

(** X13: prose around the object is dropped: for a text made of a part
    without [{], then [{ ... }], then a part without [}], the candidate
    handed to [json.loads] is exactly the [{ ... }] block. *)
Theorem isolate_json_in_prose (text : string) (p mid q : list ascii) :
  chars text = p ++ "{"%char :: mid ++ "}"%char :: q ->
  ~ In "{"%char p -> ~ In "}"%char q ->
  isolate_json text = JsonLoads (of_chars ("{"%char :: mid ++ ["}"%char])).
Proof.
  intros Hc Hp Hq.
  assert (Hne : text <> "") by (intros ->; destruct p; discriminate).
  destruct (strip_keep p "{"%char mid "}"%char q eq_refl eq_refl)
    as (p' & q' & E & Hp' & Hq').
  apply (isolate_block text p' mid q' Hne).
  - unfold strip. now rewrite chars_of_chars, Hc.
  - intros H. apply Hp, Hp', H.
  - intros H. apply Hq, Hq', H.
Qed.

Lemma isolate_json_in_prose_witness :
  isolate_json "Sure! Here you go: {1} and {2}. Bye"
  = JsonLoads (of_chars ("{"%char :: chars "1} and {2" ++ ["}"%char])).
Proof.
  apply (isolate_json_in_prose "Sure! Here you go: {1} and {2}. Bye"
           (chars "Sure! Here you go: ") (chars "1} and {2") (chars ". Bye")).
  - reflexivity.
  - cbn. intros H. repeat (destruct H as [H|H]; [discriminate H|]). exact H.
  - cbn. intros H. repeat (destruct H as [H|H]; [discriminate H|]). exact H.
Defined.

(** The cases in which [json.loads] is called: on the empty slice, or
    on the block from the first [{] to the last [}] of the stripped
    text. *)
Lemma isolate_cases (text json_str : string) :
  isolate_json text = JsonLoads json_str ->
  json_str = "" \/
  exists a mid v,
    chars (strip text) = a ++ "{"%char :: mid ++ "}"%char :: v /\
    ~ In "{"%char a /\ ~ In "}"%char v /\
    json_str = of_chars ("{"%char :: mid ++ ["}"%char]).
Proof.
  intros H.
  assert (Hne : text <> "") by (intros ->; discriminate H).
  pose proof H as H0. unfold isolate_json in H.
  rewrite (truthy_nonempty _ Hne) in H. cbn [negb] in H.
  destruct (find (strip text) "{" =? -1) eqn:E1; cbn [negb andb] in H;
    [discriminate|].
  apply Z.eqb_neq in E1.
  destruct (find_from_split "{"%char (chars (strip text)) 0 E1 ltac:(lia))
    as (a & r & Hc & Ha & Hf).
  fold (find (strip text) "{"%char) in Hf.
  destruct (rfind_from_split "}"%char (chars (strip text)) 0 (-1))
    as [(Hr & _) | (u & v & Hc' & Hv & Hr)];
    fold (rfind (strip text) "}"%char) in Hr.
  - (* no closing brace *)
    left. destruct (_ + 1 =? -1); cbn [negb] in H; [discriminate|].
    injection H as <-. rewrite Hr.
    apply slice_to_zero. rewrite Hf. lia.
  - destruct (Z_lt_ge_dec (Z.of_nat (List.length u))
                (Z.of_nat (List.length a))) as [Hlt | Hge].
    + (* the last closing brace is before the first opening one *)
      left. destruct (_ + 1 =? -1); cbn [negb] in H; [discriminate|].
      injection H as <-. rewrite Hr, Hf.
      apply slice_empty; [lia|].
      rewrite Hc, length_app. cbn [List.length]. lia.
    + right. rewrite Hc' in Hc.
      apply List.app_eq_app in Hc as (l & [(Hu & Hl) | (Ha' & Hl)]).
      * (* u = a ++ l *)
        destruct l as [|x l].
        { cbn in Hl. injection Hl as Hx _. discriminate Hx. }
        cbn in Hl. injection Hl as <- ->.
        assert (Hs : chars (strip text)
                     = a ++ "{"%char :: l ++ "}"%char :: v)
          by (rewrite Hc', Hu, <- app_assoc; reflexivity).
        exists a, l, v. repeat split; [exact Hs | exact Ha | exact Hv |].
        rewrite (isolate_block text a l v Hne Hs Ha Hv) in H0.
        now injection H0 as <-.
      * (* a = u ++ l *)
        exfalso. destruct l as [|x l].
        { cbn in Hl. injection Hl as Hx _. discriminate Hx. }
        rewrite Ha', length_app in Hge. cbn [List.length] in Hge. lia.
Qed.

(** X14: whatever the text, [json.loads] is only ever called on the empty
    text or on a block that starts with [{] and ends with [}]. *)
Theorem json_loads_candidate (text json_str : string) :
  isolate_json text = JsonLoads json_str ->
  json_str = "" \/
  exists mid, json_str = of_chars ("{"%char :: mid ++ ["}"%char]).
Proof.
  intros H. apply isolate_cases in H as [-> | (a & mid & v & _ & _ & _ & E)].
  - now left.
  - right. now exists mid.
Qed.

Lemma json_loads_candidate_witness :
  "{1}" = "" \/
  exists mid, "{1}" = of_chars ("{"%char :: mid ++ ["}"%char]).
Proof.
  apply (json_loads_candidate "ok {1} ok" "{1}"). reflexivity.
Defined.

End GeminiMore.

(* ===================================================================== *)
(** ** Invariants of the rows *)
(* ===================================================================== *)

Module RowInvariants.
Import PyStr PyStrFacts PyStrMore PyNum Sheets RowFacts.
Local Open Scope list_scope.

(** The rows are the fallback row alone, or the rows of the described
    items, of which there is at least one. *)
Lemma rows_cases (data : document) (w : world) :
  let info := default ∅ (challan_info data) in
  let d := strftime_date (reading w (calls w)) in
  let t := strftime_timestamp (reading w (S (calls w))) in
  let kept := List.filter described (default [] (table_data data)) in
  (kept = [] /\ fst (derive_rows data w) = [fallback_row info d t]) \/
  (kept <> [] /\ fst (derive_rows data w) = map (row_of info d t) kept).
Proof.
  cbv zeta. rewrite derive_rows_spec, rows_at_spec.
  destruct (List.filter described _) eqn:F; [left | right]; easy.
Qed.

Lemma rows_in (data : document) (w : world) (r : row) :
  In r (fst (derive_rows data w)) ->
  r = fallback_row (default ∅ (challan_info data))
        (strftime_date (reading w (calls w)))
        (strftime_timestamp (reading w (S (calls w))))
  \/ exists item,
       In item (default [] (table_data data)) /\ described item = true /\
       r = row_of (default ∅ (challan_info data))
             (strftime_date (reading w (calls w)))
             (strftime_timestamp (reading w (S (calls w)))) item.
Proof.
  destruct (rows_cases data w) as [(_ & ->) | (_ & ->)]; intros H.
  - left. destruct H as [<- | []]. reflexivity.
  - right. apply in_map_iff in H as (item & <- & Hin).
    apply List.filter_In in Hin as (Hin & Hd). now exists item.
Qed.

(** X1: every row sent has exactly thirteen fields. *)
Theorem row_width (data : document) (w : world) (r : row) :
  In r (fst (derive_rows data w)) -> List.length r = 13%nat.
Proof.
  intros H. apply rows_in in H as [-> | (item & _ & _ & ->)]; reflexivity.
Qed.

Lemma row_width_witness :
  List.length
    ["J1"; "V1"; "Bolt"; "10"; "0"; "Not Received"; ""; "10.0"; "2";
     "Zinc"; ""; "2024-01-02"; "2024-01-02 10:00:00"] = 13%nat.
Proof.
  apply (row_width (example_document "") example_world).
  vm_compute. left. reflexivity.
Defined.

(** X2: at least one row is always sent: the number of rows is the
    number of items with a non-blank description, or one when there is
    none. *)
Theorem row_count (data : document) (w : world) :
  List.length (fst (derive_rows data w))
  = Nat.max 1 (List.length
                 (List.filter described (default [] (table_data data)))).
Proof.
  destruct (rows_cases data w) as [(E & ->) | (E & ->)].
  - rewrite E. reflexivity.
  - rewrite List.length_map.
    destruct (List.filter described _); [contradiction | cbn; lia].
Qed.

Lemma described_spec (item : gmap string string) :
  described item = true <->
  strip (get item "description" "") <> "".
Proof.
  rewrite <- emits_described.
  destruct (strip _); cbn; split; congruence.
Qed.

(** X3: the Item field (third) of a row is empty exactly when the row is
    the fallback row, that is when no item has a non-blank description;
    and it never has whitespace around it. *)
Theorem item_field (data : document) (w : world) (r : row) :
  In r (fst (derive_rows data w)) ->
  (nth 2 r "" = "" <->
   forall item, In item (default [] (table_data data)) ->
                whitespace_only (get item "description" "") = true) /\
  strip (nth 2 r "") = nth 2 r "".
Proof.
  intros H.
  destruct (rows_cases data w) as [(E & Hr) | (E & Hr)]; rewrite Hr in H.
  - destruct H as [<- | []]. cbn [fallback_row nth]. split; [|reflexivity].
    split; [|reflexivity]. intros _ item Hin.
    destruct (whitespace_only _) eqn:W; [reflexivity|]. exfalso.
    assert (Hf : In item (List.filter described
                            (default [] (table_data data)))).
    { apply List.filter_In. split; [exact Hin|].
      unfold described. now rewrite W. }
    rewrite E in Hf. destruct Hf.
  - apply in_map_iff in H as (item & <- & Hin).
    apply List.filter_In in Hin as (Hin & Hd).
    cbn [row_of item_row nth]. split; [|apply strip_idem]. split.
    + intros He. apply described_spec in Hd. contradiction.
    + intros Hall. unfold described in Hd.
      rewrite (Hall item Hin) in Hd. discriminate.
Qed.

Lemma item_field_witness :
  (nth 2 ["J1"; "V1"; "Bolt"; "10"; "0"; "Not Received"; ""; "10.0"; "2";
          "Zinc"; ""; "2024-01-02"; "2024-01-02 10:00:00"] "" = "" <->
   forall item, In item [example_item ""] ->
                whitespace_only (get item "description" "") = true) /\
  strip "Bolt" = "Bolt".
Proof.
  apply (item_field (example_document "") example_world).
  vm_compute. left. reflexivity.
Defined.

(** X4: every row sent carries the document's challan number and vendor
    name, empty Remarks and Photo Links fields, and the same date and
    timestamp texts. *)
Theorem shared_fields (data : document) (w : world) (r : row) :
  In r (fst (derive_rows data w)) ->
  nth 0 r "" = get (default ∅ (challan_info data)) "challan_number" "" /\
  nth 1 r "" = get (default ∅ (challan_info data)) "vendor_name" "" /\
  nth 6 r "" = "" /\ nth 10 r "" = "" /\
  nth 11 r "" = strftime_date (reading w (calls w)) /\
  nth 12 r "" = strftime_timestamp (reading w (S (calls w))).
Proof.
  intros H. apply rows_in in H as [-> | (item & _ & _ & ->)];
    repeat split; reflexivity.
Qed.

Lemma shared_fields_witness :
  "J1" = get (default ∅ (Some example_info)) "challan_number" "" /\
  "V1" = get (default ∅ (Some example_info)) "vendor_name" "" /\
  "" = "" /\ "" = "" /\
  "2024-01-02" = strftime_date (reading example_world (calls example_world))
  /\ "2024-01-02 10:00:00"
     = strftime_timestamp (reading example_world (S (calls example_world))).
Proof.
  apply (shared_fields (example_document "") example_world
           ["J1"; "V1"; "Bolt"; "10"; "0"; "Not Received"; ""; "10.0"; "2";
            "Zinc"; ""; "2024-01-02"; "2024-01-02 10:00:00"]).
  vm_compute. left. reflexivity.
Defined.

Lemma normalize_received_stripped (item : gmap string string) :
  normalize_received item <> "" /\
  strip (normalize_received item) = normalize_received item.
Proof.
  rewrite normalize_received_spec.
  destruct (whitespace_only _) eqn:W; [split; [discriminate | reflexivity]|].
  split; [|apply strip_idem].
  intros E. rewrite <- blank_spec in W. unfold blank in W.
  rewrite E in W. discriminate.
Qed.

(** X5: the Weight Received field (fifth) of a row is never empty and
    has no whitespace around it; when it is ["0"] the status is
    ["Not Received"]. *)
Theorem received_field (data : document) (w : world) (r : row) :
  In r (fst (derive_rows data w)) ->
  nth 4 r "" <> "" /\ strip (nth 4 r "") = nth 4 r "" /\
  (nth 4 r "" = "0" -> nth 5 r "" = "Not Received").
Proof.
  intros H. apply rows_in in H as [-> | (item & _ & _ & ->)].
  - cbn [fallback_row nth]. split; [discriminate|]. split; reflexivity.
  - cbn [row_of item_row nth].
    destruct (normalize_received_stripped item) as (H1 & H2).
    repeat split; [exact H1 | exact H2 |].
    intros ->. reflexivity.
Qed.

Lemma received_field_witness :
  "0" <> "" /\ strip "0" = "0" /\ ("0" = "0" -> "Not Received" = "Not Received").
Proof.
  apply (received_field (example_document "") example_world
           ["J1"; "V1"; "Bolt"; "10"; "0"; "Not Received"; ""; "10.0"; "2";
            "Zinc"; ""; "2024-01-02"; "2024-01-02 10:00:00"]).
  vm_compute. left. reflexivity.
Defined.

(** X6: the status of an item's row is ["Received"] exactly when the
    normalized [weight_received] converts to a float above zero; a
    zero, a negative number and [nan] all give ["Not Received"]. *)
Theorem status_received_iff (info : gmap string string) (d t : string)
    (item : gmap string string) :
  nth 5 (row_of info d t item) "" = "Received" <->
  exists f, float_of_string (normalize_received item) = Some f /\
            SFltb (S754_zero false) f = true.
Proof.
  cbn [row_of item_row nth]. unfold status_of.
  destruct (String.eqb (normalize_received item) "0") eqn:E.
  - apply String.eqb_eq in E. rewrite E, received_num_zero. cbn. split.
    + discriminate.
    + intros (f & Hf & Hp). rewrite float_of_zero in Hf.
      injection Hf as <-. discriminate.
  - apply String.eqb_neq in E. rewrite (received_num_other _ E).
    destruct (float_of_string _) as [f|]; cbn.
    + destruct (SFltb _ f) eqn:P; split.
      * intros _. now exists f.
      * reflexivity.
      * discriminate.
      * intros (f' & Hf & Hp). injection Hf as <-. congruence.
    + split; [discriminate|]. intros (f & Hf & _). discriminate.
Qed.

Lemma status_received_iff_witness :
  nth 5 (row_of example_info "" "" (example_item " 0.5 ")) "" = "Received".
Proof.
  apply (status_received_iff example_info "" "" (example_item " 0.5 ")).
  exists (S754_finite false 4503599627370496 (-53)).
  split; vm_compute; reflexivity.
Defined.

Lemma sub_same (s : bool) (m : positive) (e : Z) :
  SFsub prec emax (S754_finite s m e) (S754_finite s m e) = S754_zero false.
Proof. unfold SFsub. now rewrite Z.sub_diag. Qed.

Lemma sub_zero (a : spec_float) :
  SFsub prec emax a (S754_zero false) = a.
Proof. destruct a as [[]|[]| |]; reflexivity. Qed.

(** X7: when a non-blank [weight_sent] and the normalized
    [weight_received] convert to the same finite non-zero float, the
    difference field is ["0.0"]. *)
Theorem difference_of_equal_weights (info : gmap string string)
    (d t : string) (item : gmap string string)
    (s : bool) (m : positive) (e : Z) :
  whitespace_only (get item "weight_sent" "") = false ->
  float_of_string (get item "weight_sent" "") = Some (S754_finite s m e) ->
  float_of_string (normalize_received item) = Some (S754_finite s m e) ->
  nth 7 (row_of info d t item) "" = "0.0".
Proof.
  intros Hw Hs Hr. cbn [row_of item_row nth]. unfold difference_of.
  rewrite sent_num_spec, Hw, Hs.
  assert (Hn : normalize_received item <> "0")
    by (intros E; rewrite E, float_of_zero in Hr; discriminate).
  rewrite (received_num_other _ Hn), Hr. cbn [option_map sub to_float str].
  now rewrite sub_same.
Qed.

Lemma difference_of_equal_weights_witness :
  nth 7 (row_of example_info "" "" (example_item " 10.00 ")) "" = "0.0".
Proof.
  apply (difference_of_equal_weights example_info "" ""
           (example_item " 10.00 ") false 5629499534213120 (-49));
    vm_compute; reflexivity.
Defined.

(** X8: when the normalized [weight_received] is ["0"] and a non-blank
    [weight_sent] converts to a float, the difference field is the text
    of that float: nothing is subtracted. *)
Theorem difference_when_none_received (info : gmap string string)
    (d t : string) (item : gmap string string) (a : spec_float) :
  whitespace_only (get item "weight_sent" "") = false ->
  float_of_string (get item "weight_sent" "") = Some a ->
  normalize_received item = "0" ->
  nth 7 (row_of info d t item) "" = str_float a.
Proof.
  intros Hw Hs Hr. cbn [row_of item_row nth]. unfold difference_of.
  rewrite sent_num_spec, Hw, Hs, Hr, received_num_zero.
  cbn [option_map sub to_float str].
  change (float_of_int 0) with (S754_zero false). now rewrite sub_zero.
Qed.

Lemma difference_when_none_received_witness :
  nth 7 (row_of example_info "" "" (example_item "")) ""
  = str_float (S754_finite false 5629499534213120 (-49)).
Proof.
  apply (difference_when_none_received example_info "" ""
           (example_item "")); vm_compute; reflexivity.
Defined.

End RowInvariants.

(* ===================================================================== *)
(** ** More on the request: success, whitespace, the whole function *)
(* ===================================================================== *)

Module SendFacts.
Import PyStr PyStrFacts PyStrMore Sheets ClassifyFacts RowFacts.
Local Open Scope list_scope.

(** X9: the function reports success exactly when the endpoint answered,
    with a status code outside 400..599 and a body containing
    ["Success"]; no exception and no other body gives it. *)
Theorem success_iff (rows : list row) (r : post_result) :
  fst (classify rows r) = true <->
  exists status_code text,
    r = Response status_code text /\
    ~ (400 <= status_code < 600) /\
    contains "Success" text = true.
Proof.
  split.
  - destruct r as [status_code text | | e | e]; cbn [classify fst];
      try discriminate.
    destruct (Z_le_dec 400 status_code) as [H1|H1];
      [destruct (Z_lt_dec status_code 600) as [H2|H2]|].
    + rewrite raise_for_status_error by lia. discriminate.
    + rewrite (raise_for_status_ok status_code) by lia.
      rewrite !contains_strip by reflexivity.
      destruct (contains "Success" text) eqn:S.
      * intros _. exists status_code, text.
        split; [reflexivity|]. split; [lia | exact S].
      * destruct (contains "Unauthorized" text);
          [discriminate|].
        destruct (contains "Invalid data format" text); [discriminate|].
        destruct (contains "No postData received" text); discriminate.
    + rewrite (raise_for_status_ok status_code) by lia.
      rewrite !contains_strip by reflexivity.
      destruct (contains "Success" text) eqn:S.
      * intros _. exists status_code, text.
        split; [reflexivity|]. split; [lia | exact S].
      * destruct (contains "Unauthorized" text);
          [discriminate|].
        destruct (contains "Invalid data format" text); [discriminate|].
        destruct (contains "No postData received" text); discriminate.
  - intros (status_code & text & -> & Hc & Hs).
    rewrite (classify_body _ _ _ Hc), Hs. reflexivity.
Qed.

Lemma success_iff_witness :
  fst (classify [] (Response 302 "Moved. Success")) = true.
Proof.
  apply (success_iff [] (Response 302 "Moved. Success")).
  exists 302, "Moved. Success".
  split; [reflexivity|]. split; [lia | reflexivity].
Defined.

(** X10: whitespace around the body does not change the outcome. *)
Theorem classify_ignores_outer_whitespace (rows : list row)
    (status_code : Z) (text : string) :
  classify rows (Response status_code (strip text))
  = classify rows (Response status_code text).
Proof. cbn [classify]. now rewrite strip_idem. Qed.

(** X11: the whole function on an endpoint that answers the request with
    a status code outside 400..599 and a body containing ["Success"]:
    it returns success with the number of rows sent, which is the number
    of items with a non-blank description, or one; and it has read the
    clock exactly twice. *)
Theorem send_success (post : string -> payload -> post_result)
    (doc : document) (script_url secret_key : string) (w : world)
    (status_code : Z) (text : string) :
  post script_url (Payload secret_key (fst (derive_rows doc w)))
    = Response status_code text ->
  ~ (400 <= status_code < 600) ->
  contains "Success" text = true ->
  fst (send_to_google_sheets post doc script_url secret_key w)
  = (true, Added (Nat.max 1
       (List.length
          (List.filter described (default [] (table_data doc))))))
  /\ calls (snd (send_to_google_sheets post doc script_url secret_key w))
     = S (S (calls w)).
Proof.
  intros Hp Hc Hs. split; [|reflexivity].
  change (fst (send_to_google_sheets post doc script_url secret_key w))
    with (classify (fst (derive_rows doc w))
            (post script_url (Payload secret_key (fst (derive_rows doc w))))).
  rewrite Hp, (classify_body _ _ _ Hc), Hs. f_equal. f_equal.
  rewrite derive_rows_spec, rows_at_spec.
  destruct (List.filter described _); [reflexivity|].
  rewrite List.length_map. cbn. lia.
Qed.

Lemma send_success_witness :
  fst (send_to_google_sheets
         (fun _ p => if String.eqb (key p) "abc123"
                     then Response 200 "Success: rows added"
                     else Response 200 "Unauthorized")
         (example_document "4") "https://script.example/exec" "abc123"
         example_world)
  = (true, Added (Nat.max 1
       (List.length
          (List.filter described
             (default [] (table_data (example_document "4")))))))
  /\ calls (snd (send_to_google_sheets
         (fun _ p => if String.eqb (key p) "abc123"
                     then Response 200 "Success: rows added"
                     else Response 200 "Unauthorized")
         (example_document "4") "https://script.example/exec" "abc123"
         example_world))
     = S (S (calls example_world)).
Proof.
  apply (send_success _ (example_document "4")
           "https://script.example/exec" "abc123" example_world
           200 "Success: rows added").
  - reflexivity.
  - lia.
  - reflexivity.
Defined.

End SendFacts.

(* ===================================================================== *)
(** ** The data panel and the send button of [main] *)
(* ===================================================================== *)

Module MainFacts.
Import PyStr PyStrFacts Sheets RowFacts Main.
Local Open Scope list_scope.

Lemma filter_loop_spec (table_data kept : list (gmap string string)) :
  filter_loop table_data kept = kept ++ List.filter described table_data.
Proof.
  revert kept. induction table_data as [|item rest IH]; intros kept.
  - cbn. now rewrite app_nil_r.
  - cbn [filter_loop List.filter]. rewrite emits_described.
    destruct (described item).
    + rewrite IH, <- app_assoc. reflexivity.
    + apply IH.
Qed.

Lemma filtered_spec (table_data : list (gmap string string)) :
  filtered_table_data table_data = List.filter described table_data.
Proof. unfold filtered_table_data. now rewrite filter_loop_spec. Qed.

(** X23: the table shown for review and the rows sent agree: when the
    panel shows a table, the rows sent are the rows of the items shown,
    one each and in the same order, and the two counts shown are the
    number of rows sent and the number of line items; when it shows no
    table, the fallback row alone is sent. *)
Theorem panel_matches_rows (data : document) (w : world) :
  match table_panel data with
  | Table shown valid total =>
      fst (derive_rows data w)
      = map (row_of (default ∅ (challan_info data))
               (strftime_date (reading w (calls w)))
               (strftime_timestamp (reading w (S (calls w))))) shown
      /\ valid = List.length (fst (derive_rows data w))
      /\ total = List.length (default [] (table_data data))
  | NoValidTable | NoTable =>
      fst (derive_rows data w)
      = [fallback_row (default ∅ (challan_info data))
           (strftime_date (reading w (calls w)))
           (strftime_timestamp (reading w (S (calls w))))]
  end.
Proof.
  unfold table_panel. cbv zeta. rewrite derive_rows_spec, rows_at_spec.
  destruct (default [] (table_data data)) as [|i items] eqn:T.
  - reflexivity.
  - rewrite filtered_spec.
    destruct (List.filter described (i :: items)) as [|k kept] eqn:F.
    + reflexivity.
    + repeat split. now rewrite List.length_map.
Qed.

Lemma forallb_filter_length {A} (f : A -> bool) (l : list A) :
  (List.length (List.filter f l) <= List.length l)%nat /\
  (List.length (List.filter f l) = List.length l <-> forallb f l = true).
Proof.
  induction l as [|x l (IH1 & IH2)]; cbn; [easy|].
  destruct (f x); cbn.
  - split; [lia|]. rewrite <- IH2. split; lia.
  - split; [lia|]. split; [lia | discriminate].
Qed.

(** X24: the number in the "Sent N rows" note is the number of line
    items (one when there is none), not the number of rows sent: it is
    never smaller, and it is the same exactly when there is at most one
    line item or every item has a non-blank description. *)
Theorem sent_note_count (data : document) (w : world) :
  (List.length (fst (derive_rows data w)) <= sent_info_count data)%nat /\
  (List.length (fst (derive_rows data w)) = sent_info_count data <->
   (List.length (default [] (table_data data)) <= 1)%nat \/
   forallb described (default [] (table_data data)) = true).
Proof.
  rewrite derive_rows_spec, rows_at_spec. unfold sent_info_count. cbv zeta.
  pose proof (forallb_filter_length described
                (default [] (table_data data))) as (Hle & Hiff).
  revert Hle Hiff.
  destruct (default [] (table_data data)) as [|i items] eqn:T;
    intros Hle Hiff.
  - cbn. split; [lia|]. split; [intros _; left; lia | reflexivity].
  - destruct (List.filter described (i :: items)) as [|k kept] eqn:F.
    + rewrite <- Hiff. cbn [List.length] in *. lia.
    + rewrite List.length_map, <- Hiff. cbn [List.length] in *. lia.
Qed.

Lemma sent_note_count_witness :
  (List.length
     (fst (derive_rows
             (Document None (Some [example_item "1"; ∅; ∅])) example_world))
   <= sent_info_count (Document None (Some [example_item "1"; ∅; ∅])))%nat.
Proof.
  apply (sent_note_count (Document None (Some [example_item "1"; ∅; ∅]))
           example_world).
Defined.

Lemma rows_at_first_fields (data : document) (d t d' t' : string) :
  map (firstn 11) (rows_at data d t) = map (firstn 11) (rows_at data d' t').
Proof.
  rewrite !rows_at_spec.
  destruct (List.filter described _) as [|k kept]; [reflexivity|].
  rewrite !map_map. apply map_ext. intros item. reflexivity.
Qed.

(** X25: when the request is not reported as a success, the payload shown
    for debugging is built from two later readings of the clock: it has
    the same key and, row by row, the same first eleven fields as the
    payload sent, the date and timestamp fields being those of the third
    and fourth readings; four readings are made in all. *)
Theorem debug_payload_fields (post : string -> payload -> post_result)
    (data : document) (script_url secret_key : string) (w : world)
    (msg : message) (debug : payload) :
  fst (send_button post data script_url secret_key w) = NotSent msg debug ->
  key debug = secret_key /\
  map (firstn 11) (Sheets.data debug)
  = map (firstn 11) (fst (derive_rows data w)) /\
  Sheets.data debug
  = rows_at data (strftime_date (reading w (S (S (calls w)))))
      (strftime_timestamp (reading w (S (S (S (calls w)))))) /\
  calls (snd (send_button post data script_url secret_key w))
  = S (S (S (S (calls w)))).
Proof.
  unfold send_button. destruct (truthy script_url); [|discriminate].
  unfold bind.
  destruct (send_to_google_sheets post data script_url secret_key w)
    as (r, w') eqn:E.
  assert (Hw : w' = World (reading w) (S (S (calls w)))).
  { unfold send_to_google_sheets, bind, derive_rows, now, ret in E.
    cbn in E. now injection E as _ <-. }
  destruct (fst r); [discriminate|]. subst w'.
  unfold bind, debug_payload, now, ret. cbn [fst snd reading calls].
  intros H. injection H as _ <-. cbn [key Sheets.data].
  split; [reflexivity|]. split; [|split; reflexivity].
  rewrite derive_rows_spec. apply rows_at_first_fields.
Qed.

Lemma debug_payload_fields_witness :
  key (Payload "abc123"
         (rows_at (example_document "4") "2024-01-02" "2024-01-02 10:00:00"))
  = "abc123".
Proof.
  apply (debug_payload_fields (fun _ _ => RaisesTimeout)
           (example_document "4") "https://script.example/exec" "abc123"
           example_world TimedOut
           (Payload "abc123"
              (rows_at (example_document "4") "2024-01-02"
                 "2024-01-02 10:00:00"))).
  vm_compute. reflexivity.
Defined.

End MainFacts.

(* ===================================================================== *)
(** ** [list_available_models] and its button *)
(* ===================================================================== *)

Module ModelsFacts.
Import PyStr Models.
Local Open Scope list_scope.

Lemma collect_spec (ms : list model) (models : list string) :
  collect ms models
  = models ++ map name (List.filter supports_generate ms).
Proof.
  revert models. induction ms as [|m rest IH]; intros models.
  - cbn. now rewrite app_nil_r.
  - cbn [collect List.filter]. destruct (supports_generate m).
    + rewrite IH, <- app_assoc. reflexivity.
    + apply IH.
Qed.

Lemma list_available_models_spec_aux (l : listing) :
  list_available_models l
  = if raises l then []
    else map name (List.filter supports_generate (yielded l)).
Proof.
  unfold list_available_models. destruct (raises l); [reflexivity|].
  apply collect_spec.
Qed.

(** X20: the function returns the names of the yielded models that list
    ['generateContent'] among their methods, in the order yielded; when
    the listing raises, even after models were collected, it returns the
    empty list. *)
Theorem list_available_models_spec (l : listing) :
  list_available_models l
  = if raises l then []
    else map name (List.filter supports_generate (yielded l)).
Proof. apply list_available_models_spec_aux. Qed.

(** X21: the button cannot tell a failed listing from an empty one: with a
    key entered, "No models found or API error" is shown exactly when
    the listing raised or no yielded model supports
    ['generateContent']. *)
Theorem no_models_iff (gemini_api_key : string) (l : listing) :
  gemini_api_key <> "" ->
  (list_models_button gemini_api_key l = NoModels <->
   raises l = true \/
   forall m, In m (yielded l) -> supports_generate m = false).
Proof.
  intros Hk. unfold list_models_button.
  destruct gemini_api_key; [contradiction|]. cbn [truthy].
  rewrite list_available_models_spec_aux. destruct (raises l).
  - split; [now left | reflexivity].
  - destruct (List.filter supports_generate (yielded l)) as [|m ms] eqn:F.
    + split; [|reflexivity]. intros _. right. intros m Hin.
      destruct (supports_generate m) eqn:S; [|reflexivity]. exfalso.
      assert (Hf : In m (List.filter supports_generate (yielded l)))
        by (apply List.filter_In; now split).
      rewrite F in Hf. destruct Hf.
    + split; [discriminate|]. intros [H | H]; [discriminate|]. exfalso.
      assert (Hf : In m (List.filter supports_generate (yielded l)))
        by (rewrite F; now left).
      apply List.filter_In in Hf as (Hin & Hs).
      rewrite (H m Hin) in Hs. discriminate.
Qed.

Lemma no_models_iff_witness :
  list_models_button "key"
    (Listing [Model "models/gemini-pro" ["generateContent"]] true)
  = NoModels.
Proof.
  apply (no_models_iff "key"
           (Listing [Model "models/gemini-pro" ["generateContent"]] true)).
  - discriminate.
  - now left.
Defined.

(** X22: when the button lists models, the count shown is the number of
    all supporting models, while at most five names are shown, the first
    five in the order yielded. *)
Theorem found_models (gemini_api_key : string) (l : listing)
    (count : nat) (shown : list string) :
  list_models_button gemini_api_key l = Found count shown ->
  raises l = false /\
  count = List.length (List.filter supports_generate (yielded l)) /\
  shown = firstn 5 (map name (List.filter supports_generate (yielded l))) /\
  List.length shown = Nat.min 5 count.
Proof.
  unfold list_models_button. destruct (truthy gemini_api_key);
    [|discriminate].
  rewrite list_available_models_spec_aux. destruct (raises l);
    [discriminate|].
  destruct (map name _) as [|n ns] eqn:M; [discriminate|].
  intros H. injection H as <- <-.
  split; [reflexivity|].
  pose proof (List.length_map name
                (List.filter supports_generate (yielded l))) as L.
  rewrite M in *. cbn [List.length] in *.
  split; [exact L|]. split; [reflexivity|].
  cbn [firstn List.length]. rewrite List.length_firstn. lia.
Qed.

Lemma found_models_witness :
  raises (Listing [Model "models/a" ["generateContent"];
                   Model "models/b" ["embedContent"]] false) = false /\
  1%nat = List.length
        (List.filter supports_generate
           (yielded (Listing [Model "models/a" ["generateContent"];
                              Model "models/b" ["embedContent"]] false))) /\
  ["models/a"]
  = firstn 5 (map name
      (List.filter supports_generate
         (yielded (Listing [Model "models/a" ["generateContent"];
                            Model "models/b" ["embedContent"]] false)))) /\
  List.length ["models/a"] = Nat.min 5 1.
Proof.
  apply (found_models "key"
           (Listing [Model "models/a" ["generateContent"];
                     Model "models/b" ["embedContent"]] false)
           1 ["models/a"]).
  reflexivity.
Defined.

End ModelsFacts.

(* ===================================================================== *)
(** ** The exception handlers and the whole analysis *)
(* ===================================================================== *)

Module GeminiErrorsFacts.
Import PyStr PyStrFacts PyStrMore Gemini GeminiFacts GeminiMore GeminiErrors.
Local Open Scope list_scope.

Lemma chars_lower (s : string) :
  chars (lower s) = map lower_char (chars s).
Proof. unfold lower. apply chars_of_chars. Qed.

Lemma infix_map (f : ascii -> ascii) (u l : list ascii) :
  infix u l -> infix (map f u) (map f l).
Proof.
  intros (a & b & ->). exists (map f a), (map f b).
  now rewrite !map_app.
Qed.

(** An occurrence survives lowercasing, letter case apart. *)
Lemma contains_lower (u e : string) :
  contains u e = true -> contains (lower u) (lower e) = true.
Proof.
  unfold contains. rewrite !contains_spec, !chars_lower. apply infix_map.
Qed.

(** X17: the two handlers agree on the key and quota errors: the
    "Test API Key" button and the analysis report an invalid key for
    the same exceptions, and a quota error for the same exceptions; a
    model-not-found of the test is one of the analysis too, and what the
    analysis reports as a plain API error the test reports as the
    same. *)
Theorem handlers_agree (e : string) :
  (test_handler e = InvalidKey <-> analyze_handler e = InvalidKey) /\
  (test_handler e = QuotaExceeded <-> analyze_handler e = QuotaExceeded) /\
  (test_handler e = ModelNotFound -> analyze_handler e = ModelNotFound) /\
  (forall e', analyze_handler e = ApiError e' -> test_handler e = ApiError e').
Proof.
  unfold test_handler, analyze_handler. cbv zeta.
  destruct (contains "api_key" (lower e) || contains "invalid" (lower e)
            || contains "403" (lower e));
    [repeat split; intros; congruence|].
  destruct (contains "quota" (lower e) || contains "limit" (lower e)
            || contains "429" (lower e));
    [repeat split; intros; congruence|].
  destruct (contains "404" (lower e)); cbn [orb];
    [repeat split; intros; congruence|].
  destruct (contains "not found" (lower e));
    [repeat split; intros; congruence|].
  destruct (contains "safety" (lower e));
    repeat split; intros; congruence.
Qed.

Lemma handlers_agree_witness :
  analyze_handler "Error 404: model is Not Found" = ModelNotFound.
Proof.
  apply (handlers_agree "Error 404: model is Not Found").
  reflexivity.
Defined.

(** X18: the invalid-key markers are found in any letter case and come
    first: an exception text with an occurrence of [api_key], [invalid]
    or [403], in whatever letter case, is reported as an invalid key by
    both handlers, whatever else it contains. *)
Theorem invalid_key_any_case (e u : string) :
  contains u e = true ->
  lower u = "api_key" \/ lower u = "invalid" \/ lower u = "403" ->
  analyze_handler e = InvalidKey /\ test_handler e = InvalidKey.
Proof.
  intros Hc Hu. apply contains_lower in Hc.
  unfold analyze_handler, test_handler. cbv zeta.
  destruct Hu as [Hu | [Hu | Hu]]; rewrite Hu in Hc; rewrite Hc;
    rewrite ?orb_true_r; split; reflexivity.
Qed.

Lemma invalid_key_any_case_witness :
  analyze_handler "400 API_KEY_INVALID: quota limit 429" = InvalidKey /\
  test_handler "400 API_KEY_INVALID: quota limit 429" = InvalidKey.
Proof.
  apply (invalid_key_any_case "400 API_KEY_INVALID: quota limit 429"
           "API_KEY").
  - reflexivity.
  - left. reflexivity.
Defined.

(** An occurrence in the lowercased text comes from an occurrence in
    the text itself, in some letter case. *)
Lemma contains_lower_inv (p e : string) :
  contains p (lower e) = true ->
  exists v, contains v e = true /\ lower v = p.
Proof.
  unfold contains. rewrite contains_spec, chars_lower.
  intros (a & b & H).
  apply map_eq_app in H as (a' & r & He & Ha & Hr).
  apply map_eq_app in Hr as (p' & b' & Hr & Hp & Hb).
  exists (of_chars p'). split.
  - rewrite contains_spec, chars_of_chars. exists a', b'.
    now rewrite He, Hr.
  - unfold lower. now rewrite chars_of_chars, Hp, of_chars_chars.
Qed.

(** X19: an exception text with an occurrence of [quota], [limit] or
    [429], in whatever letter case, is reported by both handlers as an
    invalid key when it also has an occurrence of [api_key], [invalid]
    or [403] in some letter case, and as a quota error when it has
    none. *)
Theorem quota_any_case (e u : string) :
  contains u e = true ->
  lower u = "quota" \/ lower u = "limit" \/ lower u = "429" ->
  ((exists v, contains v e = true /\
      (lower v = "api_key" \/ lower v = "invalid" \/ lower v = "403")) ->
   analyze_handler e = InvalidKey /\ test_handler e = InvalidKey) /\
  ((forall v, contains v e = true ->
      lower v <> "api_key" /\ lower v <> "invalid" /\ lower v <> "403") ->
   analyze_handler e = QuotaExceeded /\ test_handler e = QuotaExceeded).
Proof.
  intros Hc Hu. split.
  - intros (v & Hv & Hm). apply contains_lower in Hv.
    unfold analyze_handler, test_handler. cbv zeta.
    destruct Hm as [Hm | [Hm | Hm]]; rewrite Hm in Hv; rewrite Hv;
      rewrite ?orb_true_r; split; reflexivity.
  - intros Hnone. apply contains_lower in Hc.
    unfold analyze_handler, test_handler. cbv zeta.
    assert (Hk : forall p, p = "api_key" \/ p = "invalid" \/ p = "403" ->
                   contains p (lower e) = false).
    { intros p Hp. destruct (contains p (lower e)) eqn:E; [|reflexivity].
      apply contains_lower_inv in E as (v & Hv & Hl).
      destruct (Hnone v Hv) as (N1 & N2 & N3).
      destruct Hp as [-> | [-> | ->]]; contradiction. }
    rewrite (Hk "api_key"), (Hk "invalid"), (Hk "403") by auto.
    cbn [orb].
    destruct Hu as [Hu | [Hu | Hu]]; rewrite Hu in Hc; rewrite Hc;
      rewrite ?orb_true_r; split; reflexivity.
Qed.

Lemma quota_any_case_witness :
  (analyze_handler "Quota: API_Key limit" = InvalidKey /\
   test_handler "Quota: API_Key limit" = InvalidKey) /\
  (analyze_handler "Rate LIMIT reached" = QuotaExceeded /\
   test_handler "Rate LIMIT reached" = QuotaExceeded).
Proof.
  split.
  - apply (proj1 (quota_any_case "Quota: API_Key limit" "Quota"
                    eq_refl (or_introl eq_refl))).
    exists "API_Key". split; [reflexivity | left; reflexivity].
  - apply (proj2 (quota_any_case "Rate LIMIT reached" "LIMIT"
                    eq_refl (or_intror (or_introl eq_refl)))).
    intros v Hv. apply contains_lower in Hv.
    repeat split; intros E; rewrite E in Hv; vm_compute in Hv;
      discriminate Hv.
Defined.

(** X15: with a parser that rejects the empty text, as [json.loads] does,
    the analysis returns data only for a generated, non-empty text whose
    stripped form has a [{] followed later by a [}], and the data is
    what the parser gives for the block from the first [{] to the last
    [}]. *)
Theorem analysis_returns_data {A : Type} (json_loads : string -> option A)
    (g : generation) (doc : A) :
  json_loads "" = None ->
  analyze_image json_loads g = Returned_data doc ->
  exists text a mid v,
    g = Generated text /\ text <> "" /\
    chars (strip text) = a ++ "{"%char :: mid ++ "}"%char :: v /\
    ~ In "{"%char a /\ ~ In "}"%char v /\
    json_loads (of_chars ("{"%char :: mid ++ ["}"%char])) = Some doc.
Proof.
  intros Hempty H. destruct g as [text | e]; [|discriminate H].
  cbn [analyze_image] in H.
  destruct (isolate_json text) as [ | content | json_str] eqn:I;
    try discriminate H.
  destruct (json_loads json_str) as [doc' |] eqn:J; [|discriminate H].
  injection H as ->.
  assert (Hne : text <> "") by (intros ->; discriminate I).
  apply isolate_cases in I as [-> | (a & mid & v & Hc & Ha & Hv & ->)].
  - congruence.
  - exists text, a, mid, v. repeat split; assumption.
Qed.

Lemma analysis_returns_data_witness :
  exists text a mid v,
    Generated "see {1}." = Generated text /\ text <> "" /\
    chars (strip text) = a ++ "{"%char :: mid ++ "}"%char :: v /\
    ~ In "{"%char a /\ ~ In "}"%char v /\
    (fun s : string => if String.eqb s "" then None else Some s)
      (of_chars ("{"%char :: mid ++ ["}"%char])) = Some "{1}".
Proof.
  apply (analysis_returns_data
           (fun s : string => if String.eqb s "" then None else Some s)
           (Generated "see {1}.") "{1}"); reflexivity.
Defined.

(** X16: a generated text with a [{] but no [}] is not reported as
    missing JSON: [json.loads] is called on the empty text and, with a
    parser that rejects it, the malformed-JSON message is shown, with
    the raw response text. *)
Theorem unclosed_brace_is_malformed {A : Type}
    (json_loads : string -> option A) (text : string) :
  json_loads "" = None ->
  has_char "{" text -> ~ has_char "}" text ->
  analyze_image json_loads (Generated text) = ShownMalformed text.
Proof.
  intros Hempty Hopen Hclose.
  assert (Hne : text <> "") by (intros ->; destruct Hopen).
  cbn [analyze_image].
  rewrite (isolate_json_no_close text Hne).
  - now rewrite Hempty.
  - unfold strip. rewrite chars_of_chars.
    apply (in_strip_keep "{"%char _ eq_refl), Hopen.
  - unfold strip. rewrite chars_of_chars. intros H.
    apply Hclose, in_strip, H.
Qed.

Lemma unclosed_brace_is_malformed_witness :
  analyze_image (fun s : string => if String.eqb s "" then None else Some s)
    (Generated "{1: 2")
  = ShownMalformed "{1: 2".
Proof.
  apply (unclosed_brace_is_malformed
           (fun s : string => if String.eqb s "" then None else Some s)
           "{1: 2").
  - reflexivity.
  - left. reflexivity.
  - unfold has_char. cbn. intros H.
    repeat (destruct H as [H|H]; [discriminate H|]). exact H.
Defined.

End GeminiErrorsFacts.
